(** * pdf2docx: the page layout ([pdf2docx/layout/Layout.py])

    A shallow embedding of the [Layout] class: the page margin inferred from
    the bounding boxes of blocks and shapes, the content box, the snapshot
    of [store], the parsing stages and the assembly of a docx page.

    Coordinates are Python floats in the source; they are modelled as
    rationals ([Q]), which have the order and the arithmetic that the
    margin computation uses (comparisons, subtraction, halving).  Python's
    two-argument [min] and [max] are embedded with the tie rule of the
    interpreter (the first argument wins a tie). *)

From Stdlib Require Import QArith Qround Qminmax Lqa ZArith Bool List.
From stdpp Require Import base strings gmap list.
Import ListNotations.

(** ** Exceptions and the error monad *)

Inductive exn : Type :=
| TypeError    (* unpacking [None] *)
| ValueError   (* [min()] or [max()] of an empty sequence *)
| IndexError.  (* [seq[i]] out of range *)

Inductive result (A : Type) : Type :=
| Ok (a : A)
| Raise (e : exn).
Arguments Ok {A} a.
Arguments Raise {A} e.

(** [result] is a monad; stdpp's notation [x ← r; k] sequences it. *)
#[global] Instance result_ret : MRet result := fun A a => Ok a.
#[global] Instance result_fmap : FMap result := fun A B f r =>
  match r with
  | Ok a => Ok (f a)
  | Raise e => Raise e
  end.
#[global] Instance result_bind : MBind result := fun A B k r =>
  match r with
  | Ok a => k a
  | Raise e => Raise e
  end.

(** ** Python's [min], [max], [round] on numbers *)

Module Py.

(** [min(a, b)]: [b] only when [b < a]. *)
Definition min (a b : Q) : Q := if Qlt_le_dec b a then b else a.

(** [max(a, b)]: [b] only when [b > a]. *)
Definition max (a b : Q) : Q := if Qlt_le_dec a b then b else a.

(** [min(iterable)]: the first least item; [ValueError] on an empty one. *)
Definition min_of (l : list Q) : result Q :=
  match l with
  | [] => Raise ValueError
  | x :: xs => Ok (fold_left min xs x)
  end.

(** [max(iterable)]: the first greatest item; [ValueError] on an empty one. *)
Definition max_of (l : list Q) : result Q :=
  match l with
  | [] => Raise ValueError
  | x :: xs => Ok (fold_left max xs x)
  end.

(** Rounding of a rational to the nearest integer, ties to even: [round]
    rounds the exact value of its argument in this way. *)
Definition round_half_even (q : Q) : Z :=
  let n := Qfloor q in
  let r := (q - inject_Z n)%Q in
  if Qlt_le_dec r (1 # 2) then n
  else if Qlt_le_dec (1 # 2) r then (n + 1)%Z
  else if Z.even n then n else (n + 1)%Z.

(** [round(x, 1)]: one decimal, ties to even. *)
Definition round1 (q : Q) : Q :=
  (inject_Z (round_half_even (q * 10)) / 10)%Q.

(** Truth value of a number: non-zero. *)
Definition truthy (q : Q) : bool := negb (Qeq_bool q 0).

End Py.

(** ** Geometry *)

(** A bounding box [(x0, y0, x1, y1)]. *)
Record BBox : Type := mkBBox { x0 : Q; y0 : Q; x1 : Q; y1 : Q }.

(** The page margin [(left, right, top, bottom)]. *)
Definition Margin : Type := (Q * Q * Q * Q)%type.

(** A block as [Layout] observes it: its box, the two type tests, and for a
    table block the space before it and its numbers of rows and columns.
    [block_ident] stands for the content, which [Layout] never inspects. *)
Record Block : Type := mkBlock {
  block_bbox : BBox;
  is_text_block : bool;
  is_table_block : bool;
  before_space : Q;
  num_rows : Z;
  num_cols : Z;
  block_ident : nat
}.

(** A rectangle shape as [Layout] observes it. *)
Record Rectangle : Type := mkRectangle {
  rect_bbox : BBox;
  rect_ident : nat
}.

(** [Blocks] and [Rectangles] are ordered collections with [len], iteration
    and indexing: lists. *)
Definition Blocks : Type := list Block.
Definition Rectangles : Type := list Rectangle.

(** ** Constants of [common/utils]

    [ITP]: the comment of [page_margin] gives it, [1 Inch = 72 pt]. *)
Definition ITP : Q := 72.

(** ** The layout *)

Record Layout : Type := mkLayout {
  width : Q;
  height : Q;
  blocks : Blocks;
  rects : Rectangles;
  _margin : option Margin
}.

(** The property [margin]. *)
Definition margin (self : Layout) : option Margin := _margin self.

(** The property [bbox_raw]. *)
Definition bbox_raw (self : Layout) : Q * Q * Q * Q :=
  match _margin self with
  | None => (0, 0, 0, 0)%Q
  | Some (l, r, t, b) => (l, t, width self - r, height self - b)%Q
  end.

(** Truth value of a collection: [len(c) != 0]. *)
Definition nonempty {A : Type} (c : list A) : bool :=
  match c with [] => false | _ => true end.

Section PageMargin.

(** [DM] of [common/utils], the unit of the tolerance of the right
    margin, is not defined in this file: a parameter. *)
Variable DM : Q.

(** [Layout.page_margin]. *)
Definition page_margin (self : Layout) : result Margin :=
  if negb (nonempty (blocks self)) && negb (nonempty (rects self)) then
    Ok (ITP, ITP, ITP, ITP)
  else
    let list_bbox := map block_bbox (blocks self) ++ map rect_bbox (rects self) in
    (* left margin *)
    left ← Py.min_of (map x0 list_bbox);
    let left := Py.max left 0 in
    (* right margin *)
    x_max ← Py.max_of (map x1 list_bbox);
    let right := (width self - x_max - DM * 10)%Q in
    let right := Py.min right left in
    let right := Py.max right 0 in
    (* top margin *)
    top ← Py.min_of (map y0 list_bbox);
    let top := Py.max top 0 in
    (* bottom margin *)
    y_max ← Py.max_of (map y1 list_bbox);
    let bottom := (height self - y_max)%Q in
    let bottom := Py.max bottom 0 in
    (* reduce the vertical margins *)
    let top := (top * (1 # 2))%Q in
    let bottom := (bottom * (1 # 2))%Q in
    Ok (Py.min ITP left, Py.min ITP right, Py.min ITP top, Py.min ITP bottom).

End PageMargin.

(** ** Raw dictionaries and snapshots *)

(** The values of a raw page dictionary and of a snapshot. *)
#[warnings="-register-all"]
Inductive Value : Type :=
| VNone
| VFloat (q : Q)
| VStr (s : string)
| VList (l : list Value)
| VDict (d : list (string * Value)).

(** [raw.get(key, default)]. *)
Definition dict_get (raw : gmap string Value) (key : string) (dflt : Value) : Value :=
  default dflt (raw !! key).

(** The page sizes of a raw dictionary are numbers and its blocks are a
    list; a value of another shape is outside the input type and is read as
    the default. *)
Definition to_float (v : Value) : Q :=
  match v with VFloat q => q | _ => 0 end.

Definition to_list (v : Value) : list Value :=
  match v with VList l => l | _ => [] end.

(** The tuple [self._margin] as a snapshot value. *)
Definition margin_value (m : option Margin) : Value :=
  match m with
  | None => VNone
  | Some (l, r, t, b) => VList [VFloat l; VFloat r; VFloat t; VFloat b]
  end.

(** ** The document of python-docx, as [make_page] uses it *)

(** A length built by [Pt(points)]. *)
Inductive Length : Type := Pt (points : Q).

Record Paragraph : Type := mkParagraph {
  line_spacing : option Length;
  space_before : option Length;
  space_after : option Length;
  runs : list nat
}.

Record Table : Type := mkTable {
  tbl_rows : Z;
  tbl_cols : Z;
  autofit : bool;
  allow_autofit : bool;
  cells : list nat
}.

(** An element of the document body. *)
Inductive Element : Type :=
| EParagraph (p : Paragraph)
| ETable (t : Table).

Inductive WD_SECTION : Type := CONTINUOUS | NEW_PAGE.

Record DocSection : Type := mkDocSection {
  start_type : WD_SECTION;
  page_width : option Length;
  page_height : option Length;
  left_margin : option Length;
  right_margin : option Length;
  top_margin : option Length;
  bottom_margin : option Length
}.

Record Document : Type := mkDocument {
  sections : list DocSection;
  body : list Element
}.

Definition is_paragraph (e : Element) : bool :=
  match e with EParagraph _ => true | ETable _ => false end.

Definition is_table (e : Element) : bool :=
  match e with EParagraph _ => false | ETable _ => true end.

(** [doc.paragraphs]: the paragraphs of the body, in order. *)
Definition paragraphs (doc : Document) : list Element :=
  List.filter is_paragraph (body doc).

(** [doc.add_paragraph()] yields an empty paragraph at the end of the body;
    [doc.add_table(rows, cols)] a table of that size. The element is
    written to the body once the statements that format it have run. *)
Definition new_paragraph : Paragraph :=
  {| line_spacing := None; space_before := None; space_after := None; runs := [] |}.

Definition new_table (rows cols : Z) : Table :=
  {| tbl_rows := rows; tbl_cols := cols; autofit := true; allow_autofit := true;
     cells := [] |}.

Definition add_element (doc : Document) (e : Element) : Document :=
  {| sections := sections doc; body := body doc ++ [e] |}.

Definition set_space_before (p : Paragraph) (v : Length) : Paragraph :=
  {| line_spacing := line_spacing p; space_before := Some v;
     space_after := space_after p; runs := runs p |}.

Definition set_space_after (p : Paragraph) (v : Length) : Paragraph :=
  {| line_spacing := line_spacing p; space_before := space_before p;
     space_after := Some v; runs := runs p |}.

Definition set_line_spacing (p : Paragraph) (v : Length) : Paragraph :=
  {| line_spacing := Some v; space_before := space_before p;
     space_after := space_after p; runs := runs p |}.

Definition set_autofit (t : Table) (v : bool) : Table :=
  {| tbl_rows := tbl_rows t; tbl_cols := tbl_cols t; autofit := v;
     allow_autofit := allow_autofit t; cells := cells t |}.

Definition set_allow_autofit (t : Table) (v : bool) : Table :=
  {| tbl_rows := tbl_rows t; tbl_cols := tbl_cols t; autofit := autofit t;
     allow_autofit := v; cells := cells t |}.

(** [seq[i]] for [i >= 0], and [seq[-1]]. *)
Definition index {A : Type} (l : list A) (i : nat) : result A :=
  match l !! i with Some a => Ok a | None => Raise IndexError end.

Definition index_last {A : Type} (l : list A) : result A :=
  match last l with Some a => Ok a | None => Raise IndexError end.

(** [a, b, c, d = m]: [TypeError] when [m] is [None]. *)
Definition unpack (m : option Margin) : result Margin :=
  match m with Some t => Ok t | None => Raise TypeError end.

(** ** The collaborators of [Layout]

    [Blocks], [Rectangles], [TablesConstructor], [common/docx] and the
    [make_docx] methods of the blocks are not in this file. [Layout] calls
    them through the entry points below; the objects they change in place
    are returned. *)
Record Collaborators : Type := mkCollaborators {
  (** [common.utils.DM] *)
  DM : Q;
  (** [Blocks().from_dicts(raws)] *)
  Blocks_from_dicts : list Value -> Blocks;
  (** [blocks.clean(page_bbox)]: the cleaned blocks, and whether any changed *)
  Blocks_clean : Q * Q * Q * Q -> Blocks -> Blocks * bool;
  (** [rects.clean(page_bbox)] *)
  Rectangles_clean : Q * Q * Q * Q -> Rectangles -> Rectangles * bool;
  (** [blocks.store()], [rects.store()] *)
  Blocks_store : Blocks -> Value;
  Rectangles_store : Rectangles -> Value;
  (** [TablesConstructor.explicit_tables()]: blocks, shapes, tables found *)
  explicit_tables : Blocks -> Rectangles -> Blocks * Rectangles * list Block;
  (** [TablesConstructor.implicit_tables(X0, X1)] *)
  implicit_tables : Q -> Q -> Blocks -> Rectangles -> Blocks * Rectangles * list Block;
  (** [blocks.parse_text_format(rects)] *)
  Blocks_parse_text_format : Blocks -> Rectangles -> Blocks * Rectangles * bool;
  (** [blocks.parse_vertical_spacing(bbox)] *)
  Blocks_parse_vertical_spacing : Blocks -> Q * Q * Q * Q -> Blocks;
  (** [reset_paragraph_format(p, line_spacing)]; [None]: the default *)
  reset_paragraph_format : Paragraph -> option Length -> Paragraph;
  (** [block.make_docx(p, bbox)] of a text block *)
  text_make_docx : Block -> Paragraph -> Q * Q * Q * Q -> Paragraph;
  (** [block.make_docx(table, margin)] of a table block *)
  table_make_docx : Block -> Table -> option Margin -> Table
}.

(** ** The methods of [Layout] *)

Section Methods.

Variable C : Collaborators.

(** [Layout.__init__]. The table constructor keeps the blocks and the
    shapes of the layout, not copies: the methods below hand it the
    current ones. *)
Definition Layout_init (raw : gmap string Value) : Layout :=
  {| width := to_float (dict_get raw "width" (VFloat 0));
     height := to_float (dict_get raw "height" (VFloat 0));
     blocks := Blocks_from_dicts C (to_list (dict_get raw "blocks" (VList [])));
     rects := [];
     _margin := None |}.

(** [Layout.store]. *)
Definition store (self : Layout) : gmap string Value :=
  <["width" := VFloat (width self)]>
  (<["height" := VFloat (height self)]>
  (<["margin" := margin_value (_margin self)]>
  (<["blocks" := Blocks_store C (blocks self)]>
  (<["rects" := Rectangles_store C (rects self)]> ∅)))).

(** [Layout.clean], without the plotting decorator. *)
Definition clean (self : Layout) : result (Layout * bool) :=
  let page_bbox := (0, 0, width self, height self)%Q in
  let '(bs, clean_blocks) := Blocks_clean C page_bbox (blocks self) in
  let '(rs, clean_rects) := Rectangles_clean C page_bbox (rects self) in
  let self := {| width := width self; height := height self;
                 blocks := bs; rects := rs; _margin := _margin self |} in
  (* calculate page margin based on clean layout *)
  m ← page_margin (DM C) self;
  let self := {| width := width self; height := height self;
                 blocks := blocks self; rects := rects self;
                 _margin := Some m |} in
  Ok (self, clean_blocks || clean_rects).

(** [Layout.parse_explicit_tables]. *)
Definition parse_explicit_tables (self : Layout) : result (Layout * bool) :=
  let '(bs, rs, tables) := explicit_tables C (blocks self) (rects self) in
  Ok ({| width := width self; height := height self;
         blocks := bs; rects := rs; _margin := _margin self |},
      nonempty tables).

(** [Layout.parse_implicit_tables]. *)
Definition parse_implicit_tables (self : Layout) : result (Layout * bool) :=
  (* horizontal range of table *)
  '(l, r, _, _) ← unpack (margin self);
  let X0 := l in
  let X1 := (width self - r)%Q in
  let '(bs, rs, tables) := implicit_tables C X0 X1 (blocks self) (rects self) in
  Ok ({| width := width self; height := height self;
         blocks := bs; rects := rs; _margin := _margin self |},
      nonempty tables).

(** [Layout.parse_text_format]. *)
Definition parse_text_format (self : Layout) : result (Layout * bool) :=
  let '(bs, rs, changed) := Blocks_parse_text_format C (blocks self) (rects self) in
  Ok ({| width := width self; height := height self;
         blocks := bs; rects := rs; _margin := _margin self |},
      changed).

(** [Layout.parse_vertical_spacing]. *)
Definition parse_vertical_spacing (self : Layout) : result Layout :=
  let bs := Blocks_parse_vertical_spacing C (blocks self) (bbox_raw self) in
  Ok {| width := width self; height := height self;
        blocks := bs; rects := rects self; _margin := _margin self |}.

(** The stages of the pipeline, and a run of some of them in turn. *)
Inductive Stage : Type :=
| Clean
| ParseExplicitTables
| ParseImplicitTables
| ParseTextFormat
| ParseVerticalSpacing.

Definition run_stage (st : Stage) (self : Layout) : result Layout :=
  match st with
  | Clean => fst <$> clean self
  | ParseExplicitTables => fst <$> parse_explicit_tables self
  | ParseImplicitTables => fst <$> parse_implicit_tables self
  | ParseTextFormat => fst <$> parse_text_format self
  | ParseVerticalSpacing => parse_vertical_spacing self
  end.

Fixpoint run_stages (sts : list Stage) (self : Layout) : result Layout :=
  match sts with
  | [] => Ok self
  | st :: sts' => self' ← run_stage st self; run_stages sts' self'
  end.

(** [Layout.parse]. *)
Definition parse (self : Layout) : result Layout :=
  run_stages [Clean; ParseExplicitTables; ParseImplicitTables;
              ParseTextFormat; ParseVerticalSpacing] self.

End Methods.

(** ** Page assembly *)

Section Assembly.

Variable C : Collaborators.

(** The paragraph that [doc.add_section] puts at the end of the body: an
    empty paragraph, which closes the section before the new one. *)
Definition section_break : Paragraph := new_paragraph.

(** The section of the new page: the default one of a document without
    paragraphs, a new one otherwise. [doc.add_section] adds the section
    after the others and the paragraph [section_break] after the body. The
    result is the document and the position of the section in
    [doc.sections]. *)
Definition page_section (doc : Document) : result (Document * nat) :=
  if negb (nonempty (paragraphs doc)) then
    _ ← index (sections doc) 0;
    Ok (doc, 0%nat)
  else
    let s := {| start_type := NEW_PAGE; page_width := None; page_height := None;
                left_margin := None; right_margin := None;
                top_margin := None; bottom_margin := None |} in
    Ok ({| sections := sections doc ++ [s];
           body := body doc ++ [EParagraph section_break] |},
        length (sections doc)).

Definition set_page_size (w h : Q) (s : DocSection) : DocSection :=
  {| start_type := start_type s;
     page_width := Some (Pt w); page_height := Some (Pt h);
     left_margin := left_margin s; right_margin := right_margin s;
     top_margin := top_margin s; bottom_margin := bottom_margin s |}.

Definition set_page_margin (m : Margin) (s : DocSection) : DocSection :=
  let '(l, r, t, b) := m in
  {| start_type := start_type s;
     page_width := page_width s; page_height := page_height s;
     left_margin := Some (Pt l); right_margin := Some (Pt r);
     top_margin := Some (Pt t); bottom_margin := Some (Pt b) |}.

Definition update_section (i : nat) (f : DocSection -> DocSection)
    (doc : Document) : Document :=
  {| sections := alter f i (sections doc); body := body doc |}.

(** The dummy paragraph before a table whose before space is set. *)
Definition table_spacer (block : Block) : Paragraph :=
  let h := Py.round1 (before_space block / 2) in
  let p := reset_paragraph_format C new_paragraph None in
  let p := set_space_before p (Pt (Py.max h 0)) in
  let p := set_space_after p (Pt 0) in
  let p := set_line_spacing p (Pt h) in
  p.

(** The table of a table block. *)
Definition block_table (self : Layout) (block : Block) : Table :=
  let table := new_table (num_rows block) (num_cols block) in
  let table := set_autofit table false in
  let table := set_allow_autofit table false in
  table_make_docx C block table (margin self).

(** The body of the loop over the blocks. *)
Definition make_block (self : Layout) (doc : Document) (block : Block) : Document :=
  (* make paragraphs *)
  if is_text_block block then
    let p := new_paragraph in
    add_element doc (EParagraph (text_make_docx C block p (bbox_raw self)))
  (* make table *)
  else if is_table_block block then
    let doc :=
      if Py.truthy (before_space block) then
        add_element doc (EParagraph (table_spacer block))
      else doc in
    add_element doc (ETable (block_table self block))
  else doc.

(** The paragraph that closes a page ending with a table: line height 1 Pt. *)
Definition closing_paragraph : Paragraph :=
  reset_paragraph_format C new_paragraph (Some (Pt 1)).

(** [Layout.make_page]. *)
Definition make_page (self : Layout) (doc : Document) : result Document :=
  (* new page section *)
  '(doc, i) ← page_section doc;
  let doc := update_section i (set_page_size (width self) (height self)) doc in
  (* set page margin *)
  m ← unpack (margin self);
  let doc := update_section i (set_page_margin m) doc in
  (* add paragraph or table according to parsed block *)
  let doc := fold_left (make_block self) (blocks self) doc in
  (* never put a table at the end of a page *)
  ends_with_table ←
    (if nonempty (blocks self) then
       b ← index_last (blocks self); Ok (is_table_block b)
     else Ok false);
  if ends_with_table : bool then
    Ok (add_element doc (EParagraph closing_paragraph))
  else Ok doc.

End Assembly.

#[local] Open Scope Q_scope.

(** ** Views of a layout used by the statements *)

(** [list_bbox] of [page_margin]: the boxes of the blocks, then of the shapes. *)
Definition boxes (self : Layout) : list BBox :=
  map block_bbox (blocks self) ++ map rect_bbox (rects self).

(** The margin that [page_margin] computes from a first box and the others. *)
Definition margin_of_boxes (DM w h : Q) (b : BBox) (bs : list BBox) : Margin :=
  let left := Py.max (fold_left Py.min (map x0 bs) (x0 b)) 0 in
  let x_max := fold_left Py.max (map x1 bs) (x1 b) in
  let right := Py.max (Py.min (w - x_max - DM * 10) left) 0 in
  let top := Py.max (fold_left Py.min (map y0 bs) (y0 b)) 0 in
  let bottom := Py.max (h - fold_left Py.max (map y1 bs) (y1 b)) 0 in
  (Py.min ITP left, Py.min ITP right,
   Py.min ITP (top * (1 # 2)), Py.min ITP (bottom * (1 # 2)))%Q.

(** A box inside the page [(0, 0, w, h)]. *)
Definition in_page (w h : Q) (b : BBox) : Prop :=
  0 <= x0 b /\ x0 b <= x1 b /\ x1 b <= w /\
  0 <= y0 b /\ y0 b <= y1 b /\ y1 b <= h.

(** What the loop of [make_page] adds to the body for one block. *)
Definition block_elements (C : Collaborators) (self : Layout) (block : Block)
    : list Element :=
  if is_text_block block then
    [EParagraph (text_make_docx C block new_paragraph (bbox_raw self))]
  else if is_table_block block then
    (if Py.truthy (before_space block)
     then [EParagraph (table_spacer C block)] else [])
    ++ [ETable (block_table C self block)]
  else [].

(** What [make_page] adds before the loop, with the section of the page:
    nothing to a document without paragraphs, the paragraph of
    [doc.add_section] otherwise. *)
Definition break_elements (doc : Document) : list Element :=
  if nonempty (paragraphs doc) then [EParagraph section_break] else [].

(** What [make_page] adds after the loop. *)
Definition closing_elements (C : Collaborators) (self : Layout) : list Element :=
  match last (blocks self) with
  | Some b => if is_table_block b then [EParagraph (closing_paragraph C)] else []
  | None => []
  end.

(** ** The reference definition of margin inference

    Follows the words of the specification: the least and greatest
    coordinates over all boxes, the symmetry clamp of the right margin, the
    halving of the vertical margins, and the cap of every side. [min] and
    [max] are those of the rationals. *)

Definition minimum (x : Q) (xs : list Q) : Q := fold_right Qmin x xs.
Definition maximum (x : Q) (xs : list Q) : Q := fold_right Qmax x xs.

Definition reference_margin (oneInch tolerance w h : Q) (bxs : list BBox) : Margin :=
  match bxs with
  | [] => (oneInch, oneInch, oneInch, oneInch)
  | b :: bs =>
      let left := Qmax 0 (minimum (x0 b) (map x0 bs)) in
      let xMax := maximum (x1 b) (map x1 bs) in
      let right := Qmax 0 (Qmin left (w - xMax - tolerance)) in
      let top := Qmax 0 (minimum (y0 b) (map y0 bs)) in
      let bottom := Qmax 0 (h - maximum (y1 b) (map y1 bs)) in
      let top := top * (1 # 2) in
      let bottom := bottom * (1 # 2) in
      (Qmin left oneInch, Qmin right oneInch, Qmin top oneInch, Qmin bottom oneInch)
  end.

(** Two margins with equal sides (as numbers). *)
Definition margin_eq (m m' : Margin) : Prop :=
  let '(l, r, t, b) := m in
  let '(l', r', t', b') := m' in
  l == l' /\ r == r' /\ t == t' /\ b == b'.

(** ** Collaborators for the examples

    The examples below run the layout with these entry points. *)

#[global] Instance Q_eq_dec : EqDecision Q.
Proof. solve_decision. Defined.
#[global] Instance BBox_eq_dec : EqDecision BBox.
Proof. solve_decision. Defined.
#[global] Instance Block_eq_dec : EqDecision Block.
Proof. solve_decision. Defined.
#[global] Instance Rectangle_eq_dec : EqDecision Rectangle.
Proof. solve_decision. Defined.

Definition positive_area (b : BBox) : bool :=
  negb (Qle_bool (x1 b) (x0 b)) && negb (Qle_bool (y1 b) (y0 b)).

(** Modelled from the spec: [Blocks.clean] and [Rectangles.clean] are not in
    this file; cleaning is the removal of degenerate, negative-area and
    duplicate geometry, and what it returns tells whether anything changed. *)
Definition sample_clean {A : Type} `{EqDecision A} (bbox : A -> BBox)
    (page_bbox : Q * Q * Q * Q) (items : list A) : list A * bool :=
  let kept := remove_dups (List.filter (fun a => positive_area (bbox a)) items) in
  (kept, negb (length kept =? length items)%nat).

(** Modelled from the spec: [Blocks.from_dicts] is not in this file; every
    raw block with a box (a list of four numbers under [bbox]) is read as a
    text block, numbered in order. *)
Definition sample_block (n : nat) (v : Value) : option Block :=
  match v with
  | VDict [("bbox"%string, VList [VFloat a; VFloat b; VFloat c; VFloat d])] =>
      Some (mkBlock (mkBBox a b c d) true false 0 0 0 n)
  | _ => None
  end.

Definition sample_from_dicts (raws : list Value) : Blocks :=
  omap (fun '(n, v) => sample_block n v) (imap pair raws).

Definition bbox_value (b : BBox) : Value :=
  VList [VFloat (x0 b); VFloat (y0 b); VFloat (x1 b); VFloat (y1 b)].

(** Modelled from the spec: [reset_paragraph_format] of [common/docx] is not
    in this file; it gives a paragraph an explicit format, with the line
    height asked for. *)
Definition sample_reset_paragraph_format (p : Paragraph) (ls : option Length) : Paragraph :=
  {| line_spacing := ls; space_before := Some (Pt 0); space_after := Some (Pt 0);
     runs := runs p |}.

(** The table constructor of the examples finds no table; the text format
    and the spacing leave the blocks as they are; [make_docx] writes the
    number of its block into the paragraph or the table. *)
Definition sample : Collaborators :=
  {| DM := 1;
     Blocks_from_dicts := sample_from_dicts;
     Blocks_clean := sample_clean block_bbox;
     Rectangles_clean := sample_clean rect_bbox;
     Blocks_store := fun bs => VList (map (fun b => bbox_value (block_bbox b)) bs);
     Rectangles_store := fun rs => VList (map (fun r => bbox_value (rect_bbox r)) rs);
     explicit_tables := fun bs rs => (bs, rs, []);
     implicit_tables := fun _ _ bs rs => (bs, rs, []);
     Blocks_parse_text_format := fun bs rs => (bs, rs, false);
     Blocks_parse_vertical_spacing := fun bs _ => bs;
     reset_paragraph_format := sample_reset_paragraph_format;
     text_make_docx := fun b p _ =>
       {| line_spacing := line_spacing p; space_before := space_before p;
          space_after := space_after p; runs := [block_ident b] |};
     table_make_docx := fun b t _ =>
       {| tbl_rows := tbl_rows t; tbl_cols := tbl_cols t; autofit := autofit t;
          allow_autofit := allow_autofit t; cells := [block_ident b] |} |}.

(** A document as python-docx creates it: the default section, no content. *)
Definition new_document : Document :=
  {| sections := [ {| start_type := NEW_PAGE; page_width := None;
                      page_height := None; left_margin := None;
                      right_margin := None; top_margin := None;
                      bottom_margin := None |} ];
     body := [] |}.

(** A document to which a page was written before: it has a paragraph. *)
Definition written_document : Document :=
  {| sections := sections new_document;
     body := [EParagraph (text_make_docx sample
                            (mkBlock (mkBBox 100 100 700 150) true false 0 0 0 9)
                            new_paragraph (72, 50, 728, 550))] |}.

(** A raw page of 800 by 600 with two text blocks, and an empty page of 100
    by 100. *)
Definition raw_two_blocks : gmap string Value :=
  <["width" := VFloat 800]>
  (<["height" := VFloat 600]>
  (<["blocks" := VList [VDict [("bbox"%string,
                                VList [VFloat 100; VFloat 100; VFloat 700; VFloat 150])];
                        VDict [("bbox"%string,
                                VList [VFloat 100; VFloat 500; VFloat 700; VFloat 550])]]]>
   ∅)).

Definition raw_small_empty : gmap string Value :=
  <["width" := VFloat 100]> (<["height" := VFloat 100]> ∅).

(** Blocks for the examples: text blocks, and table blocks with a before
    space of 6, -4, 1/4 and 0, the last one without rows and columns. *)
Definition text_a : Block := mkBlock (mkBBox 100 100 700 150) true false 0 0 0 0.
Definition table_b : Block := mkBlock (mkBBox 100 200 700 400) false true 6 2 3 1.
Definition table_raised : Block := mkBlock (mkBBox 100 200 700 400) false true (-4) 2 3 2.
Definition table_quarter : Block :=
  mkBlock (mkBBox 100 200 700 400) false true (1 # 4) 2 3 5.
Definition table_empty : Block := mkBlock (mkBBox 100 200 700 400) false true 0 0 0 3.
Definition text_z : Block := mkBlock (mkBBox 100 450 700 500) true false 0 0 0 4.

(** A parsed page of 800 by 600 with the given blocks. *)
Definition page_of (bs : list Block) : Layout :=
  {| width := 800; height := 600; blocks := bs; rects := [];
     _margin := Some (72, 72, 50, 50) |}.

(** ** Comparison of margins *)

(** Every side of [m] is at most the same side of [m']. *)
Definition margin_le (m m' : Margin) : Prop :=
  let '(l, r, t, b) := m in
  let '(l', r', t', b') := m' in
  l <= l' /\ r <= r' /\ t <= t' /\ b <= b'.

(** A box inside the box [(bx0, by0, bx1, by1)]. *)
Definition inside (frame : Q * Q * Q * Q) (b : BBox) : Prop :=
  let '(bx0, by0, bx1, by1) := frame in
  bx0 <= x0 b /\ by0 <= y0 b /\ x1 b <= bx1 /\ y1 b <= by1.

(** The section that [make_page] writes for a layout with margin [m]. *)
Definition page_settings (self : Layout) (m : Margin) (start : WD_SECTION)
    : DocSection :=
  let '(l, r, t, b) := m in
  {| start_type := start;
     page_width := Some (Pt (width self)); page_height := Some (Pt (height self));
     left_margin := Some (Pt l); right_margin := Some (Pt r);
     top_margin := Some (Pt t); bottom_margin := Some (Pt b) |}.

(** The table of an element, if it is one. *)
Definition element_table (e : Element) : option Table :=
  match e with ETable t => Some t | EParagraph _ => None end.

(** A block that [make_page] turns into a table: the test on text comes
    first. *)
Definition emits_table (b : Block) : bool :=
  negb (is_text_block b) && is_table_block b.

(** ** Plotting

    [Layout.plot] draws the objects of one category on a new page of a
    PyMuPDF document. The document is the list of its pages; a page keeps
    what [new_page_with_margin] is given and the calls of [plot] on the
    objects, in order. *)

(** The categories that [plot] tells apart; [OTHER] stands for any other
    value of [PlotControl]. *)
Inductive PlotControl : Type :=
| LAYOUT
| TABLE
| IMPLICIT_TABLE
| SHAPE
| OTHER.

Inductive PlotObject : Type :=
| BlockObject (b : Block)
| ShapeObject (r : Rectangle).

(** The arguments of [item.plot(page, ...)]: the defaults, or [content] and
    [style]. *)
Inductive PlotArgs : Type :=
| DefaultArgs
| ContentStyle (content style : bool).

Record PlotPage : Type := mkPlotPage {
  plot_title : string;
  plot_width : Q;
  plot_height : Q;
  plot_margin : option Margin;
  drawn : list (PlotObject * PlotArgs)
}.

Section Plot.

(** The views [explicit_table_blocks] and [implicit_table_blocks] of
    [Blocks] are not in this file: parameters. *)
Variable explicit_table_blocks : Blocks -> list Block.
Variable implicit_table_blocks : Blocks -> list Block.

(** The objects of a category. *)
Definition plot_objects (self : Layout) (key : PlotControl) : list PlotObject :=
  match key with
  | LAYOUT => map BlockObject (blocks self)
  | TABLE => map BlockObject (explicit_table_blocks (blocks self))
  | IMPLICIT_TABLE => map BlockObject (implicit_table_blocks (blocks self))
  | SHAPE => map ShapeObject (rects self)
  | OTHER => []
  end.

(** [Layout.plot]. *)
Definition plot (self : Layout) (doc : list PlotPage) (title : string)
    (key : PlotControl) : list PlotPage :=
  (* get objects to plot *)
  let objects := plot_objects self key in
  (* do nothing if no objects *)
  if negb (nonempty objects) then doc
  else
    (* insert a new page *)
    let args :=
      match key with
      | TABLE => ContentStyle false true
      | IMPLICIT_TABLE => ContentStyle false false
      | _ => DefaultArgs
      end in
    doc ++ [ {| plot_title := title; plot_width := width self;
                plot_height := height self; plot_margin := margin self;
                drawn := map (fun item => (item, args)) objects |} ].

End Plot.

(** * Properties *)

(** ** Python's [min] and [max] *)

Lemma py_min_spec (a b : Q) :
  (b < a /\ Py.min a b = b) \/ (a <= b /\ Py.min a b = a).
Proof. unfold Py.min. destruct (Qlt_le_dec b a); auto. Qed.

Lemma py_max_spec (a b : Q) :
  (a < b /\ Py.max a b = b) \/ (b <= a /\ Py.max a b = a).
Proof. unfold Py.max. destruct (Qlt_le_dec a b); auto. Qed.

(** Case analysis on every [Py.min] and [Py.max] of the goal, then linear
    arithmetic. *)
Ltac py_minmax_at a b spec :=
  let H := fresh in let E := fresh in
  destruct (spec a b) as [[H E] | [H E]]; rewrite E in *; clear E.

Ltac py_minmax :=
  repeat match goal with
  | |- context [Py.min ?a ?b] => py_minmax_at a b py_min_spec
  | |- context [Py.max ?a ?b] => py_minmax_at a b py_max_spec
  | _ : context [Py.min ?a ?b] |- _ => py_minmax_at a b py_min_spec
  | _ : context [Py.max ?a ?b] |- _ => py_minmax_at a b py_max_spec
  end.

(** The same for the [Qmin] and [Qmax] of a reference definition: each is
    replaced by a number with its specification. *)
Ltac q_minmax :=
  repeat match goal with
  | |- context [Qmin ?a ?b] =>
      let H := fresh in
      pose proof (Q.min_spec a b) as H; revert H; generalize (Qmin a b); intro
  | |- context [Qmax ?a ?b] =>
      let H := fresh in
      pose proof (Q.max_spec a b) as H; revert H; generalize (Qmax a b); intro
  end;
  intros;
  repeat match goal with
  | H : _ \/ _ |- _ => destruct H as [[? ?] | [? ?]]
  end;
  lra.

Lemma py_min_Qmin (a b : Q) : Py.min a b == Qmin a b.
Proof.
  destruct (py_min_spec a b) as [[H ->] | [H ->]];
    destruct (Q.min_spec a b) as [[H' E] | [H' E]]; rewrite E; lra.
Qed.

Lemma py_max_Qmax (a b : Q) : Py.max a b == Qmax a b.
Proof.
  destruct (py_max_spec a b) as [[H ->] | [H ->]];
    destruct (Q.max_spec a b) as [[H' E] | [H' E]]; rewrite E; lra.
Qed.

(** The least item found by the loop of [min]: a lower bound of the items,
    and one of them. *)
Lemma fold_min_le (xs : list Q) (x : Q) :
  fold_left Py.min xs x <= x /\ Forall (fun y => fold_left Py.min xs x <= y) xs.
Proof.
  revert x. induction xs as [| y ys IH]; intros x; simpl.
  - split; [lra | constructor].
  - destruct (IH (Py.min x y)) as [H1 H2].
    assert (Hx : Py.min x y <= x) by (py_minmax; lra).
    assert (Hy : Py.min x y <= y) by (py_minmax; lra).
    split; [lra |]. constructor; [lra | exact H2].
Qed.

Lemma fold_min_In (xs : list Q) (x : Q) : In (fold_left Py.min xs x) (x :: xs).
Proof.
  revert x. induction xs as [| y ys IH]; intros x; simpl.
  - now left.
  - destruct (IH (Py.min x y)) as [H | H].
    + destruct (py_min_spec x y) as [[_ E] | [_ E]]; rewrite E in *;
        [right; left | left]; exact H.
    + right; right; exact H.
Qed.

Lemma fold_max_ge (xs : list Q) (x : Q) :
  x <= fold_left Py.max xs x /\ Forall (fun y => y <= fold_left Py.max xs x) xs.
Proof.
  revert x. induction xs as [| y ys IH]; intros x; simpl.
  - split; [lra | constructor].
  - destruct (IH (Py.max x y)) as [H1 H2].
    assert (Hx : x <= Py.max x y) by (py_minmax; lra).
    assert (Hy : y <= Py.max x y) by (py_minmax; lra).
    split; [lra |]. constructor; [lra | exact H2].
Qed.

Lemma fold_max_In (xs : list Q) (x : Q) : In (fold_left Py.max xs x) (x :: xs).
Proof.
  revert x. induction xs as [| y ys IH]; intros x; simpl.
  - now left.
  - destruct (IH (Py.max x y)) as [H | H].
    + destruct (py_max_spec x y) as [[_ E] | [_ E]]; rewrite E in *;
        [right; left | left]; exact H.
    + right; right; exact H.
Qed.

(** ** The boxes of a layout and the shape of [page_margin] *)

Lemma boxes_nil (self : Layout) :
  boxes self = [] <->
  negb (nonempty (blocks self)) && negb (nonempty (rects self)) = true.
Proof.
  unfold boxes. destruct (blocks self), (rects self); simpl; split;
    intros H; try reflexivity; discriminate H.
Qed.

(** [page_margin] raises nothing: the guard leaves [min] and [max] a
    sequence with an item. *)
Lemma page_margin_total (DM : Q) (self : Layout) :
  page_margin DM self =
  Ok (match boxes self with
      | [] => (ITP, ITP, ITP, ITP)
      | b :: bs => margin_of_boxes DM (width self) (height self) b bs
      end).
Proof.
  unfold page_margin. fold (boxes self).
  destruct (negb (nonempty (blocks self)) && negb (nonempty (rects self))) eqn:G.
  - apply boxes_nil in G. now rewrite G.
  - destruct (boxes self) as [| b bs] eqn:E.
    + apply boxes_nil in E. congruence.
    + reflexivity.
Qed.

Lemma minimum_le (xs : list Q) (x : Q) :
  minimum x xs <= x /\ Forall (fun y => minimum x xs <= y) xs.
Proof.
  induction xs as [| y ys [IH1 IH2]]; simpl.
  - split; [lra | constructor].
  - pose proof (Q.le_min_l y (minimum x ys)).
    pose proof (Q.le_min_r y (minimum x ys)).
    split; [lra |]. constructor; [assumption |].
    eapply Forall_impl; [exact IH2 |]. simpl. intros; lra.
Qed.

Lemma minimum_In (xs : list Q) (x : Q) :
  exists e, In e (x :: xs) /\ minimum x xs == e.
Proof.
  induction xs as [| y ys (e & He & IH)]; simpl.
  - exists x. split; [now left | reflexivity].
  - destruct (Q.min_spec y (minimum x ys)) as [[_ E] | [_ E]].
    + exists y. split; [right; now left | exact E].
    + exists e. split; [| rewrite E; exact IH].
      destruct He as [He | He]; [now left | right; now right].
Qed.

Lemma maximum_ge (xs : list Q) (x : Q) :
  x <= maximum x xs /\ Forall (fun y => y <= maximum x xs) xs.
Proof.
  induction xs as [| y ys [IH1 IH2]]; simpl.
  - split; [lra | constructor].
  - pose proof (Q.le_max_l y (maximum x ys)).
    pose proof (Q.le_max_r y (maximum x ys)).
    split; [lra |]. constructor; [assumption |].
    eapply Forall_impl; [exact IH2 |]. simpl. intros; lra.
Qed.

Lemma maximum_In (xs : list Q) (x : Q) :
  exists e, In e (x :: xs) /\ maximum x xs == e.
Proof.
  induction xs as [| y ys (e & He & IH)]; simpl.
  - exists x. split; [now left | reflexivity].
  - destruct (Q.max_spec y (maximum x ys)) as [[_ E] | [_ E]].
    + exists e. split; [| rewrite E; exact IH].
      destruct He as [He | He]; [now left | right; now right].
    + exists y. split; [right; now left | exact E].
Qed.

(** A lower bound of [x :: xs] is below each of its items. *)
Lemma lower_bound_In (m x : Q) (xs : list Q) (e : Q) :
  m <= x -> Forall (fun y => m <= y) xs -> In e (x :: xs) -> m <= e.
Proof.
  intros Hx Hxs [<- | He]; [exact Hx |].
  rewrite Forall_forall in Hxs. apply Hxs. now apply list_elem_of_In.
Qed.

Lemma upper_bound_In (m x : Q) (xs : list Q) (e : Q) :
  x <= m -> Forall (fun y => y <= m) xs -> In e (x :: xs) -> e <= m.
Proof.
  intros Hx Hxs [<- | He]; [exact Hx |].
  rewrite Forall_forall in Hxs. apply Hxs. now apply list_elem_of_In.
Qed.

(** The loop of Python's [min] finds the minimum. *)
Lemma fold_min_minimum (xs : list Q) (x : Q) :
  fold_left Py.min xs x == minimum x xs.
Proof.
  destruct (fold_min_le xs x) as [L1 L2].
  destruct (minimum_le xs x) as [M1 M2].
  destruct (minimum_In xs x) as (e & He & Ee).
  pose proof (lower_bound_In _ _ _ _ L1 L2 He).
  pose proof (lower_bound_In _ _ _ _ M1 M2 (fold_min_In xs x)).
  lra.
Qed.

Lemma fold_max_maximum (xs : list Q) (x : Q) :
  fold_left Py.max xs x == maximum x xs.
Proof.
  destruct (fold_max_ge xs x) as [L1 L2].
  destruct (maximum_ge xs x) as [M1 M2].
  destruct (maximum_In xs x) as (e & He & Ee).
  pose proof (upper_bound_In _ _ _ _ L1 L2 He).
  pose proof (upper_bound_In _ _ _ _ M1 M2 (fold_max_In xs x)).
  lra.
Qed.

(** C1. [page_margin] returns, and what it returns is the margin of the
    reference definition: the one-inch default on a page without blocks and
    shapes, and otherwise the raw extents, the symmetry clamp, the halving
    and the cap, in that order. The tolerance of the code is [DM * 10]. *)
Theorem page_margin_refines_reference (DM : Q) (self : Layout) :
  exists m,
    page_margin DM self = Ok m /\
    margin_eq m (reference_margin ITP (DM * 10) (width self) (height self)
                   (boxes self)).
Proof.
  rewrite page_margin_total. eexists; split; [reflexivity |].
  destruct (boxes self) as [| b bs]; cbn [reference_margin margin_eq].
  - repeat split; reflexivity.
  - unfold margin_of_boxes.
    pose proof (fold_min_minimum (map x0 bs) (x0 b)) as Hx0.
    pose proof (fold_max_maximum (map x1 bs) (x1 b)) as Hx1.
    pose proof (fold_min_minimum (map y0 bs) (y0 b)) as Hy0.
    pose proof (fold_max_maximum (map y1 bs) (y1 b)) as Hy1.
    revert Hx0 Hx1 Hy0 Hy1.
    generalize (fold_left Py.min (map x0 bs) (x0 b)) (minimum (x0 b) (map x0 bs))
               (fold_left Py.max (map x1 bs) (x1 b)) (maximum (x1 b) (map x1 bs))
               (fold_left Py.min (map y0 bs) (y0 b)) (minimum (y0 b) (map y0 bs))
               (fold_left Py.max (map y1 bs) (y1 b)) (maximum (y1 b) (map y1 bs)).
    intros xmin xmin' xmax xmax' ymin ymin' ymax ymax' Hx0 Hx1 Hy0 Hy1.
    split; [| split; [| split]]; py_minmax; q_minmax.
Qed.

(** ** Bounds of the margin *)

(** The sides computed from boxes: clamped below by 0 and above by one
    inch, the right one by the left one as well. *)
Lemma margin_of_boxes_bounds (DM w h : Q) (b : BBox) (bs : list BBox) :
  let '(l, r, t, bt) := margin_of_boxes DM w h b bs in
  (0 <= l <= ITP) /\ (0 <= r <= ITP) /\ (0 <= t <= ITP) /\ (0 <= bt <= ITP) /\
  r <= l.
Proof.
  unfold margin_of_boxes.
  generalize (fold_left Py.min (map x0 bs) (x0 b))
             (fold_left Py.max (map x1 bs) (x1 b))
             (fold_left Py.min (map y0 bs) (y0 b))
             (fold_left Py.max (map y1 bs) (y1 b)).
  intros xmin xmax ymin ymax. unfold ITP.
  repeat split; py_minmax; lra.
Qed.

(** C2. For every page size and every blocks and shapes, none included,
    [page_margin] returns a margin whose four sides lie between 0 and one
    inch, and whose right side is at most its left side. *)
Theorem page_margin_bounds (DM : Q) (self : Layout) :
  exists l r t b,
    page_margin DM self = Ok (l, r, t, b) /\
    (0 <= l <= ITP) /\ (0 <= r <= ITP) /\ (0 <= t <= ITP) /\ (0 <= b <= ITP) /\
    r <= l.
Proof.
  rewrite page_margin_total.
  destruct (boxes self) as [| b bs].
  - exists ITP, ITP, ITP, ITP. unfold ITP. repeat split; lra.
  - pose proof (margin_of_boxes_bounds DM (width self) (height self) b bs) as H.
    destruct (margin_of_boxes _ _ _ b bs) as [[[l r] t] bt].
    exists l, r, t, bt. split; [reflexivity | exact H].
Qed.

(** ** The margin through the stages *)

Lemma fold_min_map_In {A : Type} (f : A -> Q) (b : A) (bs : list A) :
  exists e, In e (b :: bs) /\ fold_left Py.min (map f bs) (f b) = f e.
Proof.
  pose proof (fold_min_In (map f bs) (f b)) as H.
  change (f b :: map f bs) with (map f (b :: bs)) in H.
  apply in_map_iff in H as (e & E & He). now exists e.
Qed.

Lemma fold_max_map_In {A : Type} (f : A -> Q) (b : A) (bs : list A) :
  exists e, In e (b :: bs) /\ fold_left Py.max (map f bs) (f b) = f e.
Proof.
  pose proof (fold_max_In (map f bs) (f b)) as H.
  change (f b :: map f bs) with (map f (b :: bs)) in H.
  apply in_map_iff in H as (e & E & He). now exists e.
Qed.

(** With every box inside the page and a tolerance that is not negative, the
    horizontal margins fit in the width and the vertical ones in the height. *)
Lemma margin_of_boxes_fits (DM w h : Q) (b : BBox) (bs : list BBox) :
  0 <= DM ->
  Forall (in_page w h) (b :: bs) ->
  let '(l, r, t, bt) := margin_of_boxes DM w h b bs in
  l + r <= w /\ t + bt <= h.
Proof.
  intros HDM Hall. unfold margin_of_boxes.
  assert (Hin : forall e, In e (b :: bs) -> in_page w h e).
  { intros e He. rewrite Forall_forall in Hall. apply Hall.
    now apply list_elem_of_In. }
  destruct (Hin b (or_introl eq_refl)) as (_ & Hb1 & _ & _ & Hb2 & _).
  destruct (fold_min_map_In x0 b bs) as (e1 & He1 & E1).
  destruct (fold_max_map_In x1 b bs) as (e2 & He2 & E2).
  destruct (fold_min_map_In y0 b bs) as (e3 & He3 & E3).
  destruct (fold_max_map_In y1 b bs) as (e4 & He4 & E4).
  destruct (fold_min_le (map x0 bs) (x0 b)) as [Lx _].
  destruct (fold_max_ge (map x1 bs) (x1 b)) as [Gx _].
  destruct (fold_min_le (map y0 bs) (y0 b)) as [Ly _].
  destruct (fold_max_ge (map y1 bs) (y1 b)) as [Gy _].
  rewrite E1, E2, E3, E4 in *.
  destruct (Hin e1 He1) as (? & _ & _ & _ & _ & _).
  destruct (Hin e2 He2) as (_ & _ & ? & _ & _ & _).
  destruct (Hin e3 He3) as (_ & _ & _ & ? & _ & _).
  destruct (Hin e4 He4) as (_ & _ & _ & _ & _ & ?).
  unfold ITP. split; py_minmax; lra.
Qed.

(** Only [clean] writes the margin. *)
Lemma run_stage_margin (C : Collaborators) (st : Stage) (self self' : Layout) :
  st <> Clean -> run_stage C st self = Ok self' -> margin self' = margin self.
Proof.
  intros Hst H. destruct st; [congruence | | | |]; cbn in H.
  - unfold parse_explicit_tables in H.
    destruct (explicit_tables C _ _) as [[bs rs] ts]. cbn in H.
    injection H as <-. reflexivity.
  - unfold parse_implicit_tables in H.
    destruct (margin self) as [[[[l r] t] b] |] eqn:E; cbn in H; [| discriminate].
    destruct (implicit_tables C _ _ _ _) as [[bs rs] ts]. cbn in H.
    injection H as <-. unfold margin in *. cbn. congruence.
  - unfold parse_text_format in H.
    destruct (Blocks_parse_text_format C _ _) as [[bs rs] ch]. cbn in H.
    injection H as <-. reflexivity.
  - unfold parse_vertical_spacing in H. injection H as <-. reflexivity.
Qed.

Lemma run_stages_margin (C : Collaborators) (sts : list Stage) (self self' : Layout) :
  Clean ∉ sts -> run_stages C sts self = Ok self' -> margin self' = margin self.
Proof.
  revert self. induction sts as [| st sts IH]; intros self Hno H; cbn in H.
  - now injection H as <-.
  - destruct (run_stage C st self) as [mid | e] eqn:E; cbn in H; [| discriminate].
    rewrite (IH mid); [| set_solver | exact H].
    apply (run_stage_margin C st); [set_solver | exact E].
Qed.

(** What [clean] returns. *)
Lemma clean_total (C : Collaborators) (self : Layout) :
  let page_bbox := (0, 0, width self, height self) in
  let bs := fst (Blocks_clean C page_bbox (blocks self)) in
  let rs := fst (Rectangles_clean C page_bbox (rects self)) in
  let cleaned := {| width := width self; height := height self;
                    blocks := bs; rects := rs; _margin := _margin self |} in
  exists m changed,
    page_margin (DM C) cleaned = Ok m /\
    clean C self =
    Ok ({| width := width self; height := height self;
           blocks := bs; rects := rs; _margin := Some m |}, changed).
Proof.
  cbn zeta. unfold clean.
  destruct (Blocks_clean C _ (blocks self)) as [bs cb].
  destruct (Rectangles_clean C _ (rects self)) as [rs cr]. cbn [fst].
  rewrite page_margin_total. cbn.
  eexists; eexists; split; reflexivity.
Qed.

(** C3 (as amended). The margin is unset after construction and stays unset
    through every stage other than [clean]. A call of [clean], on any layout,
    returns and sets the margin, with four sides that are not negative; on a
    page left without blocks and shapes the margin is the one-inch default
    whatever the page size; on a page left with boxes that all lie inside
    the page, and with a tolerance that is not negative, left plus right is
    at most the width and top plus bottom at most the height. *)
Theorem margin_set_by_clean (C : Collaborators) (raw : gmap string Value)
    (sts : list Stage) (unset self : Layout) :
  0 <= DM C ->
  Clean ∉ sts ->
  run_stages C sts (Layout_init C raw) = Ok unset ->
  margin unset = None /\
  exists cleaned changed l r t b,
    clean C self = Ok (cleaned, changed) /\
    margin cleaned = Some (l, r, t, b) /\
    0 <= l /\ 0 <= r /\ 0 <= t /\ 0 <= b /\
    (boxes cleaned = [] -> (l, r, t, b) = (ITP, ITP, ITP, ITP)) /\
    (boxes cleaned <> [] ->
     Forall (in_page (width cleaned) (height cleaned)) (boxes cleaned) ->
     l + r <= width cleaned /\ t + b <= height cleaned).
Proof.
  intros HDM Hno Hrun. split.
  - now rewrite (run_stages_margin C sts _ _ Hno Hrun).
  - destruct (clean_total C self) as (m & changed & Hm & Hclean).
    rewrite page_margin_total in Hm. injection Hm as Hm.
    destruct m as [[[l r] t] b].
    eexists _, changed, l, r, t, b.
    split; [exact Hclean |]. split; [reflexivity |].
    unfold boxes in *. cbn [width height blocks rects] in *.
    destruct (_ ++ _) as [| bx bxs] eqn:E.
    + injection Hm as <- <- <- <-. unfold ITP.
      repeat (split; [lra |]). split; [reflexivity | congruence].
    + pose proof (margin_of_boxes_bounds (DM C) (width self) (height self) bx bxs)
        as Hbd.
      rewrite Hm in Hbd. destruct Hbd as (Hl & Hr & Ht & Hb & _).
      repeat (split; [lra |]). split; [discriminate |].
      intros _ Hall.
      pose proof (margin_of_boxes_fits _ _ _ _ _ HDM Hall) as Hfit.
      rewrite Hm in Hfit. exact Hfit.
Qed.

(** The claim of C3 fails on an empty page of 100 by 100: [clean] sets the
    one-inch default, and twice 72 exceeds the width and the height. *)
Lemma clean_margin_exceeds_small_page :
  exists cleaned changed l r t b,
    clean sample (Layout_init sample raw_small_empty) = Ok (cleaned, changed) /\
    margin cleaned = Some (l, r, t, b) /\
    ~ l + r <= width cleaned /\ ~ t + b <= height cleaned.
Proof.
  eexists _, _, _, _, _, _. split; [vm_compute; reflexivity |].
  split; [reflexivity |]. cbn. unfold ITP. split; lra.
Qed.

(** The lifecycle on the page of 800 by 600 with two text blocks. *)
Lemma margin_set_by_clean_witness :
  margin (Layout_init sample raw_two_blocks) = None /\
  exists cleaned l r t b,
    clean sample (Layout_init sample raw_two_blocks) = Ok (cleaned, false) /\
    margin cleaned = Some (l, r, t, b) /\
    l + r <= 800 /\ t + b <= 600.
Proof.
  assert (HDM : 0 <= DM sample) by (cbn; lra).
  assert (Hno : Clean ∉ [ParseExplicitTables; ParseTextFormat]).
  { intros H. repeat (apply elem_of_cons in H as [H | H]; [discriminate H |]).
    now apply elem_of_nil in H. }
  destruct (margin_set_by_clean sample raw_two_blocks
              [ParseExplicitTables; ParseTextFormat]
              (Layout_init sample raw_two_blocks)
              (Layout_init sample raw_two_blocks) HDM Hno eq_refl)
    as (Hunset & cleaned & changed & l & r & t & b & Hc & Hm & _ & _ & _ & _ & _ & Hfit).
  split; [exact Hunset |].
  vm_compute in Hc. injection Hc as <- <-.
  eexists; exists l, r, t, b. split; [vm_compute; reflexivity |].
  split; [exact Hm |].
  apply Hfit.
  - discriminate.
  - repeat constructor; cbn; lra.
Defined.

(** ** The elements of a page *)

Lemma make_block_body (C : Collaborators) (self : Layout) (doc : Document) (b : Block) :
  body (make_block C self doc b) = body doc ++ block_elements C self b.
Proof.
  unfold make_block, block_elements.
  destruct (is_text_block b); [reflexivity |].
  destruct (is_table_block b); [| now rewrite app_nil_r].
  destruct (Py.truthy (before_space b)); cbn; [| reflexivity].
  now rewrite <- app_assoc.
Qed.

Lemma make_blocks_body (C : Collaborators) (self : Layout) (bs : list Block)
    (doc : Document) :
  body (fold_left (make_block C self) bs doc)
  = body doc ++ flat_map (block_elements C self) bs.
Proof.
  revert doc. induction bs as [| b bs IH]; intros doc; cbn.
  - now rewrite app_nil_r.
  - now rewrite IH, make_block_body, <- app_assoc.
Qed.

Lemma page_section_total (doc : Document) :
  sections doc <> [] ->
  exists doc1 i,
    page_section doc = Ok (doc1, i) /\ body doc1 = body doc ++ break_elements doc.
Proof.
  intros Hs. unfold page_section, break_elements.
  destruct (nonempty (paragraphs doc)); cbn [negb].
  - eexists _, _. split; reflexivity.
  - destruct (sections doc) as [| s ss] eqn:E; [congruence |].
    cbn. exists doc, 0%nat. now rewrite app_nil_r.
Qed.

(** On a layout with a margin and a document with a section, [make_page]
    returns; the body gains the paragraph of a new section, if one is
    added, the elements of the blocks, in order, and the closing elements. *)
Lemma make_page_body (C : Collaborators) (self : Layout) (doc : Document) (m : Margin) :
  sections doc <> [] ->
  margin self = Some m ->
  exists doc',
    make_page C self doc = Ok doc' /\
    body doc' = body doc ++ break_elements doc
                         ++ flat_map (block_elements C self) (blocks self)
                         ++ closing_elements C self.
Proof.
  intros Hs Hm. unfold make_page.
  destruct (page_section_total doc Hs) as (doc1 & i & -> & Hb). cbn.
  rewrite Hm. cbn. unfold closing_elements, index_last.
  destruct (blocks self) as [| b0 bs0] eqn:E.
  - cbn. eexists; split; [reflexivity |]. cbn. now rewrite Hb, !app_nil_r.
  - cbn [nonempty]. rewrite <- E.
    destruct (last (blocks self)) as [b |] eqn:El.
    + cbn. destruct (is_table_block b); eexists; (split; [reflexivity |]); cbn;
        rewrite make_blocks_body; cbn; rewrite Hb.
      * now rewrite <- !app_assoc.
      * now rewrite app_nil_r, <- !app_assoc.
    + apply last_None in El. congruence.
Qed.

Lemma table_block_elements (C : Collaborators) (self : Layout) (b : Block) :
  is_text_block b = false -> is_table_block b = true ->
  block_elements C self b
  = (if Py.truthy (before_space b) then [EParagraph (table_spacer C b)] else [])
    ++ [ETable (block_table C self b)].
Proof. intros Ht Htb. unfold block_elements. now rewrite Ht, Htb. Qed.

Lemma text_block_elements (C : Collaborators) (self : Layout) (b : Block) :
  is_text_block b = true ->
  block_elements C self b
  = [EParagraph (text_make_docx C b new_paragraph (bbox_raw self))].
Proof. intros Ht. unfold block_elements. now rewrite Ht. Qed.

(** C4. On a page whose last block is a table block, [make_page] ends the
    body with the table and then one more paragraph, formatted with a line
    height of 1 Pt: the last element is a paragraph, not a table. On a page
    whose last block is a text block, nothing follows the paragraph of that
    block: the body gains the paragraph of a new section, if the document
    had a paragraph, and the elements of the blocks, and ends with the
    paragraph of the last block. *)
Theorem make_page_closes_trailing_table (C : Collaborators) (self : Layout)
    (doc : Document) (m : Margin) (bs : list Block) (b : Block) :
  sections doc <> [] ->
  margin self = Some m ->
  blocks self = bs ++ [b] ->
  exists doc',
    make_page C self doc = Ok doc' /\
    (is_text_block b = false -> is_table_block b = true ->
     exists before,
       body doc' = before ++ [ETable (block_table C self b);
                              EParagraph (reset_paragraph_format C new_paragraph
                                            (Some (Pt 1)))]) /\
    (is_text_block b = true -> is_table_block b = false ->
     body doc' = body doc ++ break_elements doc
                 ++ flat_map (block_elements C self) bs
                 ++ [EParagraph (text_make_docx C b new_paragraph (bbox_raw self))]).
Proof.
  intros Hs Hm Hbs.
  destruct (make_page_body C self doc m Hs Hm) as (doc' & Hmk & Hbody).
  exists doc'. split; [exact Hmk |].
  unfold closing_elements in Hbody. rewrite Hbs in Hbody.
  rewrite last_snoc, flat_map_app in Hbody. cbn [flat_map] in Hbody.
  rewrite app_nil_r in Hbody.
  split; intros Ht Htb; rewrite Htb in Hbody.
  - rewrite (table_block_elements C self b Ht Htb) in Hbody.
    exists (body doc ++ break_elements doc
            ++ flat_map (block_elements C self) bs
            ++ (if Py.truthy (before_space b)
                then [EParagraph (table_spacer C b)] else [])).
    rewrite Hbody, <- !app_assoc. reflexivity.
  - rewrite (text_block_elements C self b Ht) in Hbody.
    rewrite Hbody. now rewrite app_nil_r.
Qed.

(** The page with a text block and then a table block, on a document that
    has a paragraph already. *)
Lemma make_page_closes_trailing_table_witness :
  exists doc' before,
    make_page sample (page_of [text_a; table_b]) written_document = Ok doc' /\
    body doc' = before ++ [ETable (block_table sample (page_of [text_a; table_b]) table_b);
                           EParagraph (reset_paragraph_format sample new_paragraph
                                         (Some (Pt 1)))].
Proof.
  destruct (make_page_closes_trailing_table sample (page_of [text_a; table_b])
              written_document (72, 72, 50, 50) [text_a] table_b)
    as (doc' & Hmk & Htab & _).
  - discriminate.
  - reflexivity.
  - reflexivity.
  - destruct (Htab eq_refl eq_refl) as (before & Hb).
    exists doc', before. split; assumption.
Defined.

(** ** The spacer before a table *)

Lemma truthy_false (q : Q) : Py.truthy q = false <-> q == 0.
Proof.
  unfold Py.truthy. rewrite negb_false_iff. apply Qeq_bool_iff.
Qed.

Lemma round_half_even_nonneg (q : Q) : 0 <= q -> (0 <= Py.round_half_even q)%Z.
Proof.
  intros Hq. unfold Py.round_half_even.
  assert (H0 : (0 <= Qfloor q)%Z).
  { change 0%Z with (Qfloor 0). now apply Qfloor_resp_le. }
  destruct (Qlt_le_dec _ _); [exact H0 |].
  destruct (Qlt_le_dec _ _); [lia |].
  destruct (Z.even _); lia.
Qed.

Lemma round1_nonneg (q : Q) : 0 <= q -> 0 <= Py.round1 q.
Proof.
  intros Hq. unfold Py.round1.
  assert (H : (0 <= Py.round_half_even (q * 10))%Z).
  { apply round_half_even_nonneg. nra. }
  apply Qle_shift_div_l; [reflexivity |].
  rewrite Qmult_0_l. change 0 with (inject_Z 0). now rewrite <- Zle_Qle.
Qed.

(** C5 (as amended). In [make_page], a table block whose before space is not
    zero, negative as well as positive, is preceded at once by a spacer
    paragraph: with [h] the half of the before space rounded to one decimal,
    its before space is [max(h, 0)] and its after space zero; when the
    before space is positive, its before space and its line spacing are both
    [h]. A table block whose before space is zero is preceded by no spacer.
    What comes before is the body of the document, the paragraph of a new
    section, if the document had a paragraph, and the elements of the
    blocks before the table block. *)
Theorem make_page_table_spacer (C : Collaborators) (self : Layout)
    (doc : Document) (m : Margin) (bs1 bs2 : list Block) (b : Block) :
  sections doc <> [] ->
  margin self = Some m ->
  blocks self = bs1 ++ b :: bs2 ->
  is_text_block b = false ->
  is_table_block b = true ->
  let h := Py.round1 (before_space b / 2) in
  let before := body doc ++ break_elements doc
                ++ flat_map (block_elements C self) bs1 in
  exists doc' rest,
    make_page C self doc = Ok doc' /\
    (~ before_space b == 0 ->
       body doc' = before ++ EParagraph (table_spacer C b)
                          :: ETable (block_table C self b) :: rest /\
       space_before (table_spacer C b) = Some (Pt (Py.max h 0)) /\
       space_after (table_spacer C b) = Some (Pt 0)) /\
    (0 < before_space b ->
       space_before (table_spacer C b) = Some (Pt h) /\
       line_spacing (table_spacer C b) = Some (Pt h)) /\
    (before_space b == 0 ->
       body doc' = before ++ ETable (block_table C self b) :: rest).
Proof.
  intros Hs Hm Hbs Ht Htb h before.
  destruct (make_page_body C self doc m Hs Hm) as (doc' & Hmk & Hbody).
  exists doc', (flat_map (block_elements C self) bs2 ++ closing_elements C self).
  split; [exact Hmk |].
  rewrite Hbs, flat_map_app in Hbody. cbn [flat_map] in Hbody.
  rewrite (table_block_elements C self b Ht Htb) in Hbody.
  split; [| split].
  - intros Hnz.
    destruct (Py.truthy (before_space b)) eqn:E;
      [| apply truthy_false in E; contradiction].
    split; [rewrite Hbody; unfold before; now rewrite <- !app_assoc |].
    split; reflexivity.
  - intros Hpos.
    assert (Hh : Py.max h 0 = h).
    { unfold Py.max. destruct (Qlt_le_dec h 0) as [Hneg |]; [| reflexivity].
      assert (0 <= h); [| lra].
      apply round1_nonneg. apply Qle_shift_div_l; [reflexivity | lra]. }
    split; [| reflexivity].
    cbn. fold h. now rewrite Hh.
  - intros Hz. apply truthy_false in Hz. rewrite Hz in Hbody.
    rewrite Hbody. unfold before. now rewrite <- !app_assoc.
Qed.

(** The claim of C5 fails on a table block whose before space is -4: a
    spacer paragraph precedes the table. It fails as well on a table block
    whose before space is 1/4: the before space of the spacer is 1/10, the
    rounded half, and not 1/8. *)
Lemma make_page_spacer_before_raised_table :
  (exists doc',
     make_page sample (page_of [table_raised]) new_document = Ok doc' /\
     before_space table_raised <= 0 /\
     body doc' = [EParagraph (table_spacer sample table_raised);
                  ETable (block_table sample (page_of [table_raised]) table_raised);
                  EParagraph (closing_paragraph sample)]) /\
  (exists doc' p rest h,
     make_page sample (page_of [table_quarter]) new_document = Ok doc' /\
     body doc' = EParagraph p :: rest /\
     space_before p = Some (Pt h) /\
     h == 1 # 10 /\
     ~ h == before_space table_quarter / 2).
Proof.
  split.
  - eexists. split; [vm_compute; reflexivity |].
    split; [cbn; lra |]. vm_compute; reflexivity.
  - eexists _, _, _, _. split; [vm_compute; reflexivity |].
    split; [reflexivity |]. split; [reflexivity |].
    split; [reflexivity |]. intros H. discriminate H.
Qed.

(** A page with a table block of before space 6 between two text blocks, on
    a document that has a paragraph already. *)
Lemma make_page_table_spacer_witness :
  exists doc' rest,
    make_page sample (page_of [text_a; table_b; text_z]) written_document = Ok doc' /\
    body doc' = (body written_document ++ [EParagraph section_break]
                 ++ flat_map (block_elements sample (page_of [text_a; table_b; text_z]))
                      [text_a])
                ++ EParagraph (table_spacer sample table_b)
                   :: ETable (block_table sample (page_of [text_a; table_b; text_z]) table_b)
                   :: rest /\
    space_before (table_spacer sample table_b)
    = Some (Pt (Py.max (Py.round1 (before_space table_b / 2)) 0)).
Proof.
  destruct (make_page_table_spacer sample (page_of [text_a; table_b; text_z])
              written_document (72, 72, 50, 50) [text_a] [text_z] table_b)
    as (doc' & rest & Hmk & Hnz & _).
  - discriminate.
  - reflexivity.
  - reflexivity.
  - reflexivity.
  - reflexivity.
  - destruct Hnz as (Hb & Hsb & _).
    + cbn. intros H. discriminate H.
    + exists doc', rest. repeat split; assumption.
Defined.

(** ** Tables without rows or columns *)

(** C6 (as amended). [make_page] skips no table block: for a table block
    with any numbers of rows and columns, zero included, it calls
    [add_table] with these numbers, and the table is an element of the page;
    the blocks before and after it are assembled in order around it, after
    the body of the document and the paragraph of a new section, if the
    document had a paragraph. *)
Theorem make_page_emits_every_table (C : Collaborators) (self : Layout)
    (doc : Document) (m : Margin) (bs1 bs2 : list Block) (b : Block) :
  sections doc <> [] ->
  margin self = Some m ->
  blocks self = bs1 ++ b :: bs2 ->
  is_text_block b = false ->
  is_table_block b = true ->
  let t := table_make_docx C b
             {| tbl_rows := num_rows b; tbl_cols := num_cols b;
                autofit := false; allow_autofit := false; cells := [] |}
             (margin self) in
  exists doc' spacer,
    make_page C self doc = Ok doc' /\
    In (ETable t) (body doc') /\
    body doc' = body doc ++ break_elements doc
                ++ flat_map (block_elements C self) bs1
                ++ spacer ++ [ETable t]
                ++ flat_map (block_elements C self) bs2
                ++ closing_elements C self.
Proof.
  intros Hs Hm Hbs Ht Htb t.
  destruct (make_page_body C self doc m Hs Hm) as (doc' & Hmk & Hbody).
  exists doc', (if Py.truthy (before_space b)
                then [EParagraph (table_spacer C b)] else []).
  split; [exact Hmk |].
  rewrite Hbs, flat_map_app in Hbody. cbn [flat_map] in Hbody.
  rewrite (table_block_elements C self b Ht Htb) in Hbody.
  change (block_table C self b) with t in Hbody.
  rewrite <- !app_assoc in Hbody.
  split; [| exact Hbody].
  rewrite Hbody. rewrite !in_app_iff. do 4 right. left. now left.
Qed.

(** The claim of C6 fails on a table block without rows and columns: the
    page has a table of zero rows and zero columns, between the paragraphs
    of its neighbours. *)
Lemma make_page_emits_empty_table :
  exists doc' p t q,
    make_page sample (page_of [text_a; table_empty; text_z]) new_document = Ok doc' /\
    num_rows table_empty = 0%Z /\ num_cols table_empty = 0%Z /\
    body doc' = [EParagraph p; ETable t; EParagraph q] /\
    tbl_rows t = 0%Z /\ tbl_cols t = 0%Z.
Proof.
  eexists _, _, _, _. split; [vm_compute; reflexivity |].
  repeat split.
Qed.

(** The page with a table block without rows and columns between two text
    blocks, on a document that has a paragraph already. *)
Lemma make_page_emits_every_table_witness :
  exists doc',
    make_page sample (page_of [text_a; table_empty; text_z]) written_document
    = Ok doc' /\
    In (ETable (table_make_docx sample table_empty
                  {| tbl_rows := 0; tbl_cols := 0; autofit := false;
                     allow_autofit := false; cells := [] |}
                  (Some (72, 72, 50, 50))))
       (body doc').
Proof.
  destruct (make_page_emits_every_table sample (page_of [text_a; table_empty; text_z])
              written_document (72, 72, 50, 50) [text_a] [text_z] table_empty)
    as (doc' & spacer & Hmk & Hin & _).
  - discriminate.
  - reflexivity.
  - reflexivity.
  - reflexivity.
  - reflexivity.
  - exists doc'. split; [exact Hmk | exact Hin].
Defined.

(** ** The snapshot *)

Lemma store_dom (C : Collaborators) (self : Layout) :
  dom (store C self)
  = ({["width"; "height"; "margin"; "blocks"; "rects"]} : gset string).
Proof. unfold store. rewrite !dom_insert_L, dom_empty_L. set_solver. Qed.

(** C7 (as amended). For every layout, [store] returns a mapping with
    exactly the keys [width], [height], [margin], [blocks] and [rects]: the
    page sizes, the margin (its four sides, or [None] when unset), and the
    snapshots of the blocks and of the shapes. *)
Theorem store_keys (C : Collaborators) (self : Layout) :
  dom (store C self)
  = ({["width"; "height"; "margin"; "blocks"; "rects"]} : gset string) /\
  store C self !! "width" = Some (VFloat (width self)) /\
  store C self !! "height" = Some (VFloat (height self)) /\
  store C self !! "margin" = Some (margin_value (margin self)) /\
  store C self !! "blocks" = Some (Blocks_store C (blocks self)) /\
  store C self !! "rects" = Some (Rectangles_store C (rects self)).
Proof.
  split; [apply store_dom |].
  unfold store, margin. repeat split; by simplify_map_eq.
Qed.

(** The claim of C7 fails on every layout, here on a page with one text
    block: the snapshot has no key [shapes]; the shapes are under [rects]. *)
Lemma store_has_no_shapes_key :
  store sample (page_of [text_a]) !! "shapes" = None /\
  ("shapes" ∉ dom (store sample (page_of [text_a]))) /\
  ("rects" ∈ dom (store sample (page_of [text_a]))).
Proof.
  assert (H : store sample (page_of [text_a]) !! "shapes" = None)
    by (vm_compute; reflexivity).
  split; [exact H |]. split.
  - now apply not_elem_of_dom.
  - apply elem_of_dom. eexists. vm_compute. reflexivity.
Qed.

(** ** The content box *)

(** C8. While the margin is unset, as it is after construction, [bbox_raw]
    is the box [(0, 0, 0, 0)]: it neither raises nor returns the page
    rectangle. Once the margin is set, it is
    [(left, top, width - right, height - bottom)]. *)
Theorem bbox_raw_unset_and_set (C : Collaborators) (raw : gmap string Value)
    (self : Layout) :
  bbox_raw (Layout_init C raw) = (0, 0, 0, 0) /\
  (margin self = None -> bbox_raw self = (0, 0, 0, 0)) /\
  (forall l r t b, margin self = Some (l, r, t, b) ->
     bbox_raw self = (l, t, width self - r, height self - b)).
Proof.
  unfold bbox_raw, margin. split; [reflexivity |].
  split; [intros -> | intros l r t b ->]; reflexivity.
Qed.

(** The box of the page of 800 by 600, before [clean] and with a margin. *)
Lemma bbox_raw_unset_and_set_witness :
  bbox_raw (Layout_init sample raw_two_blocks) = (0, 0, 0, 0) /\
  bbox_raw (page_of [text_a]) = (72, 50, 800 - 72, 600 - 50).
Proof.
  destruct (bbox_raw_unset_and_set sample raw_two_blocks (page_of [text_a]))
    as (Hnew & _ & Hset).
  split; [exact Hnew | exact (Hset 72 72 50 50 eq_refl)].
Defined.

(** ** Construction *)

(** C9. For every raw dictionary, the layout is constructed without shapes;
    entries under [rects] or [shapes] in the dictionary change nothing of
    the constructed layout. *)
Theorem init_without_shapes (C : Collaborators) (raw : gmap string Value)
    (v : Value) :
  rects (Layout_init C raw) = [] /\
  Layout_init C (<["rects" := v]> raw) = Layout_init C raw /\
  Layout_init C (<["shapes" := v]> raw) = Layout_init C raw.
Proof.
  unfold Layout_init, dict_get. split; [reflexivity |].
  split; by rewrite !lookup_insert_ne.
Qed.

(** ** The implicit tables *)

(** C10. On a layout whose margin is unset, as it is after construction,
    [parse_implicit_tables] raises [TypeError] at the unpacking of the
    margin and returns nothing. On a layout whose margin is set, the
    unpacking succeeds, the table constructor is called with the bounds
    [left] and [width - right], and the method returns whether it found a
    table. *)
Theorem parse_implicit_tables_unpacks (C : Collaborators)
    (raw : gmap string Value) (self : Layout) :
  parse_implicit_tables C (Layout_init C raw) = Raise TypeError /\
  (margin self = None -> parse_implicit_tables C self = Raise TypeError) /\
  (forall l r t b, margin self = Some (l, r, t, b) ->
     exists self',
       parse_implicit_tables C self
       = Ok (self', nonempty (implicit_tables C l (width self - r)
                                (blocks self) (rects self)).2) /\
       blocks self' = (implicit_tables C l (width self - r)
                         (blocks self) (rects self)).1.1 /\
       margin self' = margin self).
Proof.
  unfold parse_implicit_tables, margin. split; [reflexivity |].
  split; [intros -> | intros l r t b ->]; [reflexivity |].
  cbn. destruct (implicit_tables C l _ _ _) as [[bs rs] tables].
  eexists. split; [reflexivity |]. split; reflexivity.
Qed.

(** The page of 800 by 600, before [clean] and with a margin. *)
Lemma parse_implicit_tables_unpacks_witness :
  parse_implicit_tables sample (Layout_init sample raw_two_blocks) = Raise TypeError /\
  exists self',
    parse_implicit_tables sample (page_of [text_a]) = Ok (self', false) /\
    margin self' = Some (72, 72, 50, 50).
Proof.
  destruct (parse_implicit_tables_unpacks sample raw_two_blocks (page_of [text_a]))
    as (Hnew & _ & Hset).
  split; [exact Hnew |].
  destruct (Hset 72 72 50 50 eq_refl) as (self' & Hp & _ & Hm).
  exists self'. split; [exact Hp | exact Hm].
Defined.

(** * Further properties *)

(** ** The margin and the set of boxes *)

Lemma fold_min_incl (x y : Q) (xs ys : list Q) :
  (forall e, In e (x :: xs) -> In e (y :: ys)) ->
  fold_left Py.min ys y <= fold_left Py.min xs x.
Proof.
  intros Hincl. destruct (fold_min_le ys y) as [L1 L2].
  apply (lower_bound_In _ y ys); [exact L1 | exact L2 |].
  apply Hincl, fold_min_In.
Qed.

Lemma fold_max_incl (x y : Q) (xs ys : list Q) :
  (forall e, In e (x :: xs) -> In e (y :: ys)) ->
  fold_left Py.max xs x <= fold_left Py.max ys y.
Proof.
  intros Hincl. destruct (fold_max_ge ys y) as [L1 L2].
  apply (upper_bound_In _ y ys); [exact L1 | exact L2 |].
  apply Hincl, fold_max_In.
Qed.

Lemma In_map_cons {A : Type} (f : A -> Q) (b b' : A) (bs bs' : list A) :
  (forall e, In e (b :: bs) -> In e (b' :: bs')) ->
  forall q, In q (f b :: map f bs) -> In q (f b' :: map f bs').
Proof.
  intros Hincl q Hq.
  change (In q (map f (b :: bs))) in Hq. change (In q (map f (b' :: bs'))).
  apply in_map_iff in Hq as (e & <- & He). apply in_map, Hincl, He.
Qed.

(** More boxes: no side of the computed margin grows. *)
Lemma margin_of_boxes_incl (DM w h : Q) (b b' : BBox) (bs bs' : list BBox) :
  (forall e, In e (b :: bs) -> In e (b' :: bs')) ->
  margin_le (margin_of_boxes DM w h b' bs') (margin_of_boxes DM w h b bs).
Proof.
  intros Hincl. unfold margin_of_boxes, margin_le.
  pose proof (fold_min_incl _ _ _ _ (In_map_cons x0 _ _ _ _ Hincl)) as Hx0.
  pose proof (fold_max_incl _ _ _ _ (In_map_cons x1 _ _ _ _ Hincl)) as Hx1.
  pose proof (fold_min_incl _ _ _ _ (In_map_cons y0 _ _ _ _ Hincl)) as Hy0.
  pose proof (fold_max_incl _ _ _ _ (In_map_cons y1 _ _ _ _ Hincl)) as Hy1.
  revert Hx0 Hx1 Hy0 Hy1.
  generalize (fold_left Py.min (map x0 bs) (x0 b)) (fold_left Py.min (map x0 bs') (x0 b'))
             (fold_left Py.max (map x1 bs) (x1 b)) (fold_left Py.max (map x1 bs') (x1 b'))
             (fold_left Py.min (map y0 bs) (y0 b)) (fold_left Py.min (map y0 bs') (y0 b'))
             (fold_left Py.max (map y1 bs) (y1 b)) (fold_left Py.max (map y1 bs') (y1 b')).
  intros xmin xmin' xmax xmax' ymin ymin' ymax ymax' Hx0 Hx1 Hy0 Hy1.
  unfold ITP. repeat split; py_minmax; lra.
Qed.

Lemma page_margin_incl (DM : Q) (self self' : Layout) :
  width self = width self' ->
  height self = height self' ->
  (forall e, In e (boxes self) -> In e (boxes self')) ->
  exists m m',
    page_margin DM self = Ok m /\ page_margin DM self' = Ok m' /\ margin_le m' m.
Proof.
  intros Hw Hh Hincl. rewrite !page_margin_total. eexists _, _.
  split; [reflexivity |]. split; [reflexivity |].
  destruct (boxes self) as [| b bs].
  - destruct (boxes self') as [| b' bs'].
    + unfold margin_le, ITP. repeat split; lra.
    + pose proof (margin_of_boxes_bounds DM (width self') (height self') b' bs') as H.
      destruct (margin_of_boxes _ _ _ b' bs') as [[[l r] t] bt].
      unfold margin_le. repeat split; lra.
  - destruct (boxes self') as [| b' bs'].
    + destruct (Hincl b (or_introl eq_refl)).
    + rewrite Hw, Hh. now apply margin_of_boxes_incl.
Qed.

(** X1. Content never widens a margin: when a page has all the boxes of
    another page of the same size, and maybe more, each side of its margin
    is at most the same side of the margin of the other; the page without
    boxes has the widest margin. *)
Theorem page_margin_shrinks_with_boxes (DM : Q) (self self' : Layout) :
  width self = width self' ->
  height self = height self' ->
  (forall e, In e (boxes self) -> In e (boxes self')) ->
  exists m m',
    page_margin DM self = Ok m /\ page_margin DM self' = Ok m' /\ margin_le m' m.
Proof. exact (page_margin_incl DM self self'). Qed.

(** X2. The margin depends on the set of boxes only: two pages of the same
    size whose boxes are the same, in any order, with any repetition, and
    whether a box is that of a block or of a shape, have margins with equal
    sides. *)
Theorem page_margin_same_boxes (DM : Q) (self self' : Layout) :
  width self = width self' ->
  height self = height self' ->
  (forall e, In e (boxes self) <-> In e (boxes self')) ->
  exists m m',
    page_margin DM self = Ok m /\ page_margin DM self' = Ok m' /\ margin_eq m m'.
Proof.
  intros Hw Hh Hsame.
  destruct (page_margin_incl DM self self' Hw Hh) as (m & m' & Hm & Hm' & Hle).
  { intros e. apply Hsame. }
  destruct (page_margin_incl DM self' self (eq_sym Hw) (eq_sym Hh))
    as (n' & n & Hn' & Hn & Hge).
  { intros e. apply Hsame. }
  exists m, m'. split; [exact Hm |]. split; [exact Hm' |].
  assert (n = m) by congruence. assert (n' = m') by congruence. subst n n'.
  destruct m as [[[l r] t] b], m' as [[[l' r'] t'] b'].
  unfold margin_le in *. unfold margin_eq.
  destruct Hle as (? & ? & ? & ?), Hge as (? & ? & ? & ?).
  repeat split; lra.
Qed.

(** A page with one text block, and the same page with a table block added. *)
Lemma page_margin_shrinks_with_boxes_witness :
  exists m m',
    page_margin 1 (page_of [text_a]) = Ok m /\
    page_margin 1 (page_of [text_a; table_b]) = Ok m' /\
    margin_le m' m.
Proof.
  apply (page_margin_shrinks_with_boxes 1 (page_of [text_a])
           (page_of [text_a; table_b])).
  - reflexivity.
  - reflexivity.
  - cbn. intros e [<- | []]. now left.
Defined.

(** The same two boxes, in another order and one of them twice. *)
Lemma page_margin_same_boxes_witness :
  exists m m',
    page_margin 1 (page_of [text_a; table_b]) = Ok m /\
    page_margin 1 (page_of [table_b; text_a; table_b]) = Ok m' /\
    margin_eq m m'.
Proof.
  apply (page_margin_same_boxes 1 (page_of [text_a; table_b])
           (page_of [table_b; text_a; table_b])).
  - reflexivity.
  - reflexivity.
  - cbn. intros e. tauto.
Defined.

(** ** The right margin *)

(** X3. The right margin and the room right of the boxes. When every box
    leaves, after the tolerance [DM * 10], a room of at least the left
    margin, the right margin equals the left one. When the right margin is
    positive, every box ends at least the tolerance before it. *)
Theorem right_margin_room (DM : Q) (self : Layout) :
  exists l r t b,
    page_margin DM self = Ok (l, r, t, b) /\
    (Forall (fun bx => l <= width self - x1 bx - DM * 10) (boxes self) -> r == l) /\
    (0 < r -> Forall (fun bx => x1 bx + DM * 10 <= width self - r) (boxes self)).
Proof.
  rewrite page_margin_total.
  destruct (boxes self) as [| b bs].
  - exists ITP, ITP, ITP, ITP. split; [reflexivity |].
    split; [reflexivity | constructor].
  - unfold margin_of_boxes. eexists _, _, _, _. split; [reflexivity |].
    destruct (fold_max_map_In x1 b bs) as (e & He & E).
    destruct (fold_max_ge (map x1 bs) (x1 b)) as [G1 G2].
    split.
    + intros Hroom. rewrite Forall_forall in Hroom.
      assert (He' : e ∈ b :: bs) by now apply list_elem_of_In.
      specialize (Hroom e He'). cbv beta in Hroom. rewrite <- E in Hroom.
      revert Hroom.
      generalize (fold_left Py.max (map x1 bs) (x1 b))
                 (fold_left Py.min (map x0 bs) (x0 b)).
      intros xmax xmin. unfold ITP. intros Hroom. py_minmax; lra.
    + intros Hpos. apply Forall_forall. intros bx Hbx.
      apply list_elem_of_In in Hbx.
      assert (Hle : x1 bx <= fold_left Py.max (map x1 bs) (x1 b)).
      { apply (upper_bound_In _ (x1 b) (map x1 bs)); [exact G1 | exact G2 |].
        change (In (x1 bx) (map x1 (b :: bs))). now apply in_map. }
      revert Hpos Hle.
      generalize (fold_left Py.max (map x1 bs) (x1 b))
                 (fold_left Py.min (map x0 bs) (x0 b)).
      intros xmax xmin. unfold ITP. intros Hpos Hle. py_minmax; lra.
Qed.

(** The page of 800 with a box from 100 to 700: room 90, margins 72. *)
Lemma right_margin_room_witness :
  exists l r t b,
    page_margin 1 (page_of [text_a]) = Ok (l, r, t, b) /\
    r == l /\
    Forall (fun bx => x1 bx + 1 * 10 <= 800 - r) [block_bbox text_a].
Proof.
  destruct (right_margin_room 1 (page_of [text_a]))
    as (l & r & t & b & Hm & Hsym & Hfree).
  exists l, r, t, b. split; [exact Hm |].
  vm_compute in Hm. injection Hm as <- <- <- <-.
  split.
  - apply Hsym. repeat constructor. cbn. lra.
  - apply Hfree. reflexivity.
Defined.

(** ** The content box *)

Lemma margin_of_boxes_inside (DM w h : Q) (b : BBox) (bs : list BBox) :
  0 <= DM ->
  Forall (in_page w h) (b :: bs) ->
  let '(l, r, t, bt) := margin_of_boxes DM w h b bs in
  Forall (inside (l, t, w - r, h - bt)) (b :: bs).
Proof.
  intros HDM Hall. unfold margin_of_boxes.
  assert (Hin : forall e, In e (b :: bs) -> in_page w h e).
  { intros e He. rewrite Forall_forall in Hall. apply Hall.
    now apply list_elem_of_In. }
  destruct (fold_max_map_In y1 b bs) as (e4 & He4 & E4).
  destruct (Hin e4 He4) as (_ & _ & _ & _ & _ & Hymax). rewrite <- E4 in Hymax.
  apply Forall_forall. intros e He. apply list_elem_of_In in He.
  destruct (Hin e He) as (? & ? & ? & ? & ? & ?).
  destruct (fold_min_le (map x0 bs) (x0 b)) as [Lx1 Lx2].
  destruct (fold_max_ge (map x1 bs) (x1 b)) as [Gx1 Gx2].
  destruct (fold_min_le (map y0 bs) (y0 b)) as [Ly1 Ly2].
  destruct (fold_max_ge (map y1 bs) (y1 b)) as [Gy1 Gy2].
  assert (Hx0 : fold_left Py.min (map x0 bs) (x0 b) <= x0 e).
  { apply (lower_bound_In _ (x0 b) (map x0 bs)); [assumption | assumption |].
    change (In (x0 e) (map x0 (b :: bs))). now apply in_map. }
  assert (Hx1 : x1 e <= fold_left Py.max (map x1 bs) (x1 b)).
  { apply (upper_bound_In _ (x1 b) (map x1 bs)); [assumption | assumption |].
    change (In (x1 e) (map x1 (b :: bs))). now apply in_map. }
  assert (Hy0 : fold_left Py.min (map y0 bs) (y0 b) <= y0 e).
  { apply (lower_bound_In _ (y0 b) (map y0 bs)); [assumption | assumption |].
    change (In (y0 e) (map y0 (b :: bs))). now apply in_map. }
  assert (Hy1 : y1 e <= fold_left Py.max (map y1 bs) (y1 b)).
  { apply (upper_bound_In _ (y1 b) (map y1 bs)); [assumption | assumption |].
    change (In (y1 e) (map y1 (b :: bs))). now apply in_map. }
  clear Lx1 Lx2 Gx1 Gx2 Ly1 Ly2 Gy1 Gy2 E4 He4 Hin Hall He.
  revert Hymax Hx0 Hx1 Hy0 Hy1.
  generalize (fold_left Py.min (map x0 bs) (x0 b)) (fold_left Py.max (map x1 bs) (x1 b))
             (fold_left Py.min (map y0 bs) (y0 b)) (fold_left Py.max (map y1 bs) (y1 b)).
  intros xmin xmax ymin ymax Hymax Hx0 Hx1 Hy0 Hy1.
  unfold inside, ITP. repeat split; py_minmax; lra.
Qed.

(** X4. The margin covers no content: after [clean], when the boxes left on
    the page lie inside the page and the tolerance is not negative, every
    one of them lies inside the content box [bbox_raw]. *)
Theorem content_box_contains_boxes (C : Collaborators) (self : Layout) :
  0 <= DM C ->
  exists cleaned changed,
    clean C self = Ok (cleaned, changed) /\
    (Forall (in_page (width cleaned) (height cleaned)) (boxes cleaned) ->
     Forall (inside (bbox_raw cleaned)) (boxes cleaned)).
Proof.
  intros HDM.
  destruct (clean_total C self) as (m & changed & Hm & Hclean).
  eexists _, changed. split; [exact Hclean |].
  rewrite page_margin_total in Hm. injection Hm as Hm.
  unfold boxes, bbox_raw in *. cbn [width height blocks rects _margin] in *.
  destruct (_ ++ _) as [| bx bxs]; [constructor |].
  intros Hall.
  pose proof (margin_of_boxes_inside _ _ _ _ _ HDM Hall) as Hin.
  rewrite Hm in Hin. destruct m as [[[l r] t] b]. exact Hin.
Qed.

(** The page of 800 by 600 with two text blocks. *)
Lemma content_box_contains_boxes_witness :
  exists cleaned changed,
    clean sample (Layout_init sample raw_two_blocks) = Ok (cleaned, changed) /\
    Forall (inside (bbox_raw cleaned)) (boxes cleaned).
Proof.
  assert (HDM : 0 <= DM sample) by (cbn; lra).
  destruct (content_box_contains_boxes sample (Layout_init sample raw_two_blocks) HDM)
    as (cleaned & changed & Hc & Hin).
  exists cleaned, changed. split; [exact Hc |].
  apply Hin. vm_compute in Hc. injection Hc as <- <-.
  repeat constructor; cbn; lra.
Defined.

(** ** The pipeline *)

(** A stage other than [clean] keeps the sizes of the page. *)
Lemma run_stage_sizes (C : Collaborators) (st : Stage) (self self' : Layout) :
  run_stage C st self = Ok self' ->
  width self' = width self /\ height self' = height self.
Proof.
  intros H. destruct st; cbn in H.
  - unfold clean in H.
    destruct (Blocks_clean C _ _) as [bs cb].
    destruct (Rectangles_clean C _ _) as [rs cr].
    destruct (page_margin _ _) as [m | e]; cbn in H; [| discriminate].
    injection H as <-. split; reflexivity.
  - unfold parse_explicit_tables in H.
    destruct (explicit_tables C _ _) as [[bs rs] ts]. cbn in H.
    injection H as <-. split; reflexivity.
  - unfold parse_implicit_tables in H.
    destruct (margin self) as [[[[l r] t] b] |]; cbn in H; [| discriminate].
    destruct (implicit_tables C _ _ _ _) as [[bs rs] ts]. cbn in H.
    injection H as <-. split; reflexivity.
  - unfold parse_text_format in H.
    destruct (Blocks_parse_text_format C _ _) as [[bs rs] ch]. cbn in H.
    injection H as <-. split; reflexivity.
  - unfold parse_vertical_spacing in H. injection H as <-. split; reflexivity.
Qed.

(** With a margin, every stage returns. *)
Lemma run_stage_total (C : Collaborators) (st : Stage) (self : Layout) (m : Margin) :
  st = Clean \/ margin self = Some m ->
  exists self', run_stage C st self = Ok self'.
Proof.
  intros H. destruct st; cbn.
  - destruct (clean_total C self) as (m' & ch & _ & ->). cbn. eauto.
  - unfold parse_explicit_tables.
    destruct (explicit_tables C _ _) as [[bs rs] ts]. cbn. eauto.
  - destruct H as [H | H]; [discriminate |].
    unfold parse_implicit_tables. rewrite H. destruct m as [[[l r] t] b]. cbn.
    destruct (implicit_tables C _ _ _ _) as [[bs rs] ts]. cbn. eauto.
  - unfold parse_text_format.
    destruct (Blocks_parse_text_format C _ _) as [[bs rs] ch]. cbn. eauto.
  - unfold parse_vertical_spacing. eauto.
Qed.

(** X6. [parse] raises nothing, on a layout with or without a margin: [clean]
    sets the margin before the implicit tables unpack it. The layout that
    [parse] returns has the sizes of the page and the margin that [clean]
    computed: the stages after [clean], which replace blocks by tables, do
    not change it. *)
Theorem parse_returns (C : Collaborators) (self : Layout) :
  exists parsed cleaned changed m,
    parse C self = Ok parsed /\
    clean C self = Ok (cleaned, changed) /\
    margin cleaned = Some m /\
    margin parsed = Some m /\
    width parsed = width self /\ height parsed = height self.
Proof.
  destruct (clean_total C self) as (m & changed & _ & Hclean).
  set (cleaned := {| _margin := Some m |}) in Hclean.
  assert (Hrest : forall sts L, Clean ∉ sts -> margin L = Some m ->
            exists L', run_stages C sts L = Ok L' /\ margin L' = Some m /\
                       width L' = width L /\ height L' = height L).
  { induction sts as [| st sts IH]; intros L Hno HL.
    - exists L. split; [reflexivity |]. split; [exact HL |]. split; reflexivity.
    - destruct (run_stage_total C st L m (or_intror HL)) as (L1 & H1).
      assert (Hst : st <> Clean) by set_solver.
      pose proof (run_stage_margin C st L L1 Hst H1) as Hm1.
      destruct (run_stage_sizes C st L L1 H1) as [Hw1 Hh1].
      destruct (IH L1) as (L' & HL' & Hm' & Hw' & Hh');
        [set_solver | congruence |].
      exists L'. cbn. rewrite H1. cbn.
      split; [exact HL' |]. split; [exact Hm' |]. split; congruence. }
  destruct (Hrest [ParseExplicitTables; ParseImplicitTables; ParseTextFormat;
                   ParseVerticalSpacing] cleaned)
    as (parsed & Hp & Hm & Hw & Hh); [| reflexivity |].
  { intros H. repeat (apply elem_of_cons in H as [H | H]; [discriminate H |]).
    now apply elem_of_nil in H. }
  exists parsed, cleaned, changed, m.
  split; [unfold parse; cbn [run_stages]; cbn [run_stage]; rewrite Hclean; exact Hp |].
  split; [exact Hclean |]. split; [reflexivity |]. split; [exact Hm |].
  split; [exact Hw | exact Hh].
Qed.

(** X7. The stages in another order: from a constructed layout, a run in
    which the implicit tables come before any [clean] raises [TypeError],
    whatever stages precede and follow. *)
Theorem implicit_tables_before_clean (C : Collaborators)
    (raw : gmap string Value) (before after : list Stage) :
  Clean ∉ before ->
  run_stages C (before ++ ParseImplicitTables :: after) (Layout_init C raw)
  = Raise TypeError.
Proof.
  assert (H : forall sts self, Clean ∉ sts -> margin self = None ->
            run_stages C (sts ++ ParseImplicitTables :: after) self
            = Raise TypeError).
  { induction sts as [| st sts IH]; intros self Hno Hm.
    - cbn. unfold parse_implicit_tables. now rewrite Hm.
    - cbn [app run_stages].
      destruct (run_stage C st self) as [self' | e] eqn:E.
      + cbn. apply IH; [set_solver |].
        rewrite (run_stage_margin C st self self'); [exact Hm | set_solver | exact E].
      + cbn. destruct st; cbn in E.
        * set_solver.
        * unfold parse_explicit_tables in E.
          destruct (explicit_tables C _ _) as [[bs rs] ts]. discriminate E.
        * unfold parse_implicit_tables in E. rewrite Hm in E. cbn in E. congruence.
        * unfold parse_text_format in E.
          destruct (Blocks_parse_text_format C _ _) as [[bs rs] ch]. discriminate E.
        * discriminate E. }
  intros Hno. now apply H.
Qed.

(** Explicit tables and text format first, then the implicit tables. *)
Lemma implicit_tables_before_clean_witness :
  run_stages sample
    ([ParseExplicitTables; ParseTextFormat] ++ ParseImplicitTables :: [Clean])
    (Layout_init sample raw_two_blocks)
  = Raise TypeError.
Proof.
  apply (implicit_tables_before_clean sample raw_two_blocks
           [ParseExplicitTables; ParseTextFormat] [Clean]).
  intros H. repeat (apply elem_of_cons in H as [H | H]; [discriminate H |]).
  now apply elem_of_nil in H.
Defined.

(** ** The sections of the document *)

Lemma make_blocks_sections (C : Collaborators) (self : Layout) (bs : list Block)
    (doc : Document) :
  sections (fold_left (make_block C self) bs doc) = sections doc.
Proof.
  revert doc. induction bs as [| b bs IH]; intros doc; cbn; [reflexivity |].
  rewrite IH. unfold make_block.
  destruct (is_text_block b); [reflexivity |].
  destruct (is_table_block b); [| reflexivity].
  destruct (Py.truthy (before_space b)); reflexivity.
Qed.

Lemma page_settings_set (self : Layout) (m : Margin) (s : DocSection) :
  set_page_margin m (set_page_size (width self) (height self) s)
  = page_settings self m (start_type s).
Proof. destruct m as [[[l r] t] b]. reflexivity. Qed.

(** The sections after [make_page]: the first one rewritten when the
    document has no paragraph, one more otherwise. *)
Lemma make_page_sections (C : Collaborators) (self : Layout) (doc doc' : Document)
    (m : Margin) :
  make_page C self doc = Ok doc' ->
  margin self = Some m ->
  sections doc' =
  if nonempty (paragraphs doc) then sections doc ++ [page_settings self m NEW_PAGE]
  else match sections doc with
       | s :: ss => page_settings self m (start_type s) :: ss
       | [] => []
       end.
Proof.
  intros H Hm. unfold make_page, page_section in H.
  assert (Htail : forall d : Document,
            (ends_with_table ←
               (if nonempty (blocks self)
                then b ← index_last (blocks self); Ok (is_table_block b)
                else Ok false);
             if ends_with_table : bool
             then Ok (add_element (fold_left (make_block C self) (blocks self) d)
                        (EParagraph (closing_paragraph C)))
             else Ok (fold_left (make_block C self) (blocks self) d)) = Ok doc' ->
            sections doc' = sections d).
  { intros d Hd.
    destruct (if nonempty (blocks self) then _ else _) as [[|] | e]; cbn in Hd;
      [| | discriminate]; injection Hd as <-; cbn; apply make_blocks_sections. }
  destruct (nonempty (paragraphs doc)); cbn in H.
  - rewrite Hm in H. cbn in H. apply Htail in H. rewrite H. cbn.
    rewrite !(alter_app_r_alt _ _ _ (length (sections doc))) by lia.
    rewrite Nat.sub_diag. cbn. now rewrite page_settings_set.
  - destruct (sections doc) as [| s ss] eqn:Es; cbn in H; [discriminate |].
    rewrite Hm in H. cbn in H. apply Htail in H. rewrite H. cbn.
    rewrite Es. cbn. now rewrite page_settings_set.
Qed.

(** X8. The errors of [make_page]. On a document without paragraphs and
    without sections it raises [IndexError]. Otherwise, on a layout whose
    margin is unset, as it is after construction, it raises [TypeError]
    before any block is assembled. *)
Theorem make_page_errors (C : Collaborators) (self : Layout) (doc : Document)
    (raw : gmap string Value) :
  (paragraphs doc = [] -> sections doc = [] ->
   make_page C self doc = Raise IndexError) /\
  (sections doc <> [] -> margin self = None ->
   make_page C self doc = Raise TypeError) /\
  (sections doc <> [] -> make_page C (Layout_init C raw) doc = Raise TypeError).
Proof.
  assert (H : forall L, sections doc <> [] -> margin L = None ->
            make_page C L doc = Raise TypeError).
  { intros L Hs Hm. unfold make_page.
    destruct (page_section_total doc Hs) as (doc1 & i & -> & _). cbn.
    now rewrite Hm. }
  split; [| split].
  - intros Hp Hs. unfold make_page, page_section. now rewrite Hp, Hs.
  - apply H.
  - intros Hs. now apply H.
Qed.

(** A document without sections; the new document and a margin unset. *)
Lemma make_page_errors_witness :
  make_page sample (page_of [text_a]) {| sections := []; body := [] |}
  = Raise IndexError /\
  make_page sample (Layout_init sample raw_two_blocks) new_document
  = Raise TypeError.
Proof.
  destruct (make_page_errors sample (page_of [text_a])
              {| sections := []; body := [] |} raw_two_blocks) as (H1 & _ & _).
  destruct (make_page_errors sample (Layout_init sample raw_two_blocks)
              new_document raw_two_blocks) as (_ & H2 & _).
  split; [apply H1; reflexivity | apply H2; [discriminate | reflexivity]].
Defined.

(** X9. The first page: on a document without paragraphs, [make_page] adds
    no section; it writes the sizes of the page and the margin into the
    first section, keeps its start type, and leaves the other sections as
    they are. *)
Theorem make_page_first_section (C : Collaborators) (self : Layout)
    (doc : Document) (m : Margin) (s : DocSection) (ss : list DocSection) :
  paragraphs doc = [] ->
  sections doc = s :: ss ->
  margin self = Some m ->
  exists doc',
    make_page C self doc = Ok doc' /\
    sections doc' = page_settings self m (start_type s) :: ss.
Proof.
  intros Hp Hs Hm.
  destruct (make_page_body C self doc m) as (doc' & Hmk & _);
    [rewrite Hs; discriminate | exact Hm |].
  exists doc'. split; [exact Hmk |].
  rewrite (make_page_sections C self doc doc' m Hmk Hm). now rewrite Hp, Hs.
Qed.

Lemma make_page_first_section_witness :
  exists doc',
    make_page sample (page_of [text_a]) new_document = Ok doc' /\
    sections doc' = [page_settings (page_of [text_a]) (72, 72, 50, 50) NEW_PAGE].
Proof.
  apply (make_page_first_section sample (page_of [text_a]) new_document
           (72, 72, 50, 50)
           (mkDocSection NEW_PAGE None None None None None None) []); reflexivity.
Defined.

(** X10. A later page: on a document that has a paragraph, [make_page] adds
    one section at the end, starting a new page, with the sizes of the page
    and the margin, and leaves the sections before it as they are. *)
Theorem make_page_new_section (C : Collaborators) (self : Layout)
    (doc : Document) (m : Margin) :
  paragraphs doc <> [] ->
  sections doc <> [] ->
  margin self = Some m ->
  exists doc',
    make_page C self doc = Ok doc' /\
    sections doc' = sections doc ++ [page_settings self m NEW_PAGE].
Proof.
  intros Hp Hs Hm.
  destruct (make_page_body C self doc m Hs Hm) as (doc' & Hmk & _).
  exists doc'. split; [exact Hmk |].
  rewrite (make_page_sections C self doc doc' m Hmk Hm).
  destruct (paragraphs doc); [congruence | reflexivity].
Qed.

Lemma make_page_new_section_witness :
  exists doc',
    make_page sample (page_of [text_a])
      {| sections := sections new_document; body := [EParagraph new_paragraph] |}
    = Ok doc' /\
    sections doc' = sections new_document
                    ++ [page_settings (page_of [text_a]) (72, 72, 50, 50) NEW_PAGE].
Proof.
  apply (make_page_new_section sample (page_of [text_a])
           {| sections := sections new_document; body := [EParagraph new_paragraph] |}
           (72, 72, 50, 50)); [discriminate | discriminate | reflexivity].
Defined.

(** ** The tables of a page *)

Lemma block_elements_tables (C : Collaborators) (self : Layout) (b : Block) :
  omap element_table (block_elements C self b)
  = if emits_table b then [block_table C self b] else [].
Proof.
  unfold block_elements, emits_table.
  destruct (is_text_block b); [reflexivity |].
  destruct (is_table_block b); [| reflexivity].
  destruct (Py.truthy (before_space b)); reflexivity.
Qed.

Lemma blocks_elements_tables (C : Collaborators) (self : Layout) (bs : list Block) :
  omap element_table (flat_map (block_elements C self) bs)
  = map (block_table C self) (List.filter emits_table bs).
Proof.
  induction bs as [| b bs IH]; [reflexivity |].
  cbn [flat_map List.filter]. rewrite omap_app, IH, block_elements_tables.
  destruct (emits_table b); reflexivity.
Qed.

Lemma break_elements_tables (doc : Document) :
  omap element_table (break_elements doc) = [].
Proof. unfold break_elements. destruct (nonempty (paragraphs doc)); reflexivity. Qed.

Lemma closing_elements_tables (C : Collaborators) (self : Layout) :
  omap element_table (closing_elements C self) = [].
Proof.
  unfold closing_elements. destruct (last (blocks self)) as [b |]; [| reflexivity].
  destruct (is_table_block b); reflexivity.
Qed.

(** X11. One table for each table block, and no other: the tables that
    [make_page] adds to the body are those of the blocks that are table
    blocks and not text blocks, one for each, in the order of the blocks;
    the tables that the document had stay before them. *)
Theorem make_page_tables_in_order (C : Collaborators) (self : Layout)
    (doc : Document) (m : Margin) :
  sections doc <> [] ->
  margin self = Some m ->
  exists doc',
    make_page C self doc = Ok doc' /\
    omap element_table (body doc')
    = omap element_table (body doc)
      ++ map (block_table C self) (List.filter emits_table (blocks self)).
Proof.
  intros Hs Hm.
  destruct (make_page_body C self doc m Hs Hm) as (doc' & Hmk & Hbody).
  exists doc'. split; [exact Hmk |].
  rewrite Hbody, !omap_app, blocks_elements_tables, closing_elements_tables,
    break_elements_tables.
  now rewrite app_nil_r.
Qed.

Lemma make_page_tables_in_order_witness :
  exists doc',
    make_page sample (page_of [table_b; text_a; table_empty]) new_document = Ok doc' /\
    omap element_table (body doc')
    = [block_table sample (page_of [table_b; text_a; table_empty]) table_b;
       block_table sample (page_of [table_b; text_a; table_empty]) table_empty].
Proof.
  apply (make_page_tables_in_order sample (page_of [table_b; text_a; table_empty])
           new_document (72, 72, 50, 50)); [discriminate | reflexivity].
Defined.

(** ** Pages one after the other *)

Lemma has_paragraph (doc : Document) (p : Paragraph) :
  In (EParagraph p) (body doc) -> paragraphs doc <> [].
Proof.
  intros H E.
  assert (Hin : In (EParagraph p) (paragraphs doc))
    by (apply filter_In; split; [exact H | reflexivity]).
  rewrite E in Hin. destruct Hin.
Qed.

(** X12. Every page with content has its own section: after [make_page] of
    a page whose last block is a text block or a table block, the document
    has a paragraph, so that [make_page] of the next page adds a section for
    it, and adds, after the elements of the first page, the paragraph that
    closes the section of the first page and then its own elements. *)
Theorem make_page_twice (C : Collaborators) (first second : Layout)
    (doc : Document) (m1 m2 : Margin) (bs : list Block) (b : Block) :
  sections doc <> [] ->
  margin first = Some m1 ->
  margin second = Some m2 ->
  blocks first = bs ++ [b] ->
  is_text_block b || is_table_block b = true ->
  exists doc1 doc2,
    make_page C first doc = Ok doc1 /\
    make_page C second doc1 = Ok doc2 /\
    sections doc2 = sections doc1 ++ [page_settings second m2 NEW_PAGE] /\
    body doc2 = body doc1 ++ EParagraph section_break
                          :: flat_map (block_elements C second) (blocks second)
                          ++ closing_elements C second.
Proof.
  intros Hs Hm1 Hm2 Hbs Hb.
  destruct (make_page_body C first doc m1 Hs Hm1) as (doc1 & Hmk1 & Hbody1).
  assert (Hs1 : sections doc1 <> []).
  { rewrite (make_page_sections C first doc doc1 m1 Hmk1 Hm1).
    destruct (nonempty (paragraphs doc)).
    - intros E. apply app_eq_nil in E as [_ E]. discriminate E.
    - destruct (sections doc); [congruence | discriminate]. }
  assert (Hp1 : paragraphs doc1 <> []).
  { destruct (is_text_block b) eqn:Et.
    - apply (has_paragraph doc1 (text_make_docx C b new_paragraph (bbox_raw first))).
      rewrite Hbody1, Hbs, flat_map_app. cbn [flat_map].
      rewrite (text_block_elements C first b Et), !in_app_iff.
      right. right. left. right. left. now left.
    - cbn in Hb. apply (has_paragraph doc1 (closing_paragraph C)).
      rewrite Hbody1. unfold closing_elements. rewrite Hbs, last_snoc, Hb.
      rewrite !in_app_iff. right. right. right. now left. }
  destruct (make_page_body C second doc1 m2 Hs1 Hm2) as (doc2 & Hmk2 & Hbody2).
  exists doc1, doc2. split; [exact Hmk1 |]. split; [exact Hmk2 |].
  split.
  - rewrite (make_page_sections C second doc1 doc2 m2 Hmk2 Hm2).
    destruct (paragraphs doc1); [congruence | reflexivity].
  - rewrite Hbody2. unfold break_elements.
    destruct (paragraphs doc1); [congruence | reflexivity].
Qed.

Lemma make_page_twice_witness :
  exists doc1 doc2,
    make_page sample (page_of [text_a; table_b]) new_document = Ok doc1 /\
    make_page sample (page_of [text_z]) doc1 = Ok doc2 /\
    sections doc2 = sections doc1
                    ++ [page_settings (page_of [text_z]) (72, 72, 50, 50) NEW_PAGE] /\
    body doc2 = body doc1
                ++ [EParagraph section_break;
                    EParagraph (text_make_docx sample text_z new_paragraph
                                  (bbox_raw (page_of [text_z])))].
Proof.
  destruct (make_page_twice sample (page_of [text_a; table_b]) (page_of [text_z])
              new_document (72, 72, 50, 50) (72, 72, 50, 50) [text_a] table_b)
    as (doc1 & doc2 & H1 & H2 & H3 & H4);
    [discriminate | reflexivity | reflexivity | reflexivity | reflexivity |].
  exists doc1, doc2. split; [exact H1 |]. split; [exact H2 |].
  split; [exact H3 | exact H4].
Defined.

(** X13. A page without blocks leaves no section of its own: on a document
    without paragraphs it writes its settings into the first section and
    adds nothing to the body, and [make_page] of the next page writes over
    these settings instead of adding a section. *)
Theorem make_page_after_empty_page (C : Collaborators) (empty next : Layout)
    (doc : Document) (m1 m2 : Margin) (s : DocSection) (ss : list DocSection) :
  paragraphs doc = [] ->
  sections doc = s :: ss ->
  blocks empty = [] ->
  margin empty = Some m1 ->
  margin next = Some m2 ->
  exists doc1 doc2,
    make_page C empty doc = Ok doc1 /\
    body doc1 = body doc /\
    sections doc1 = page_settings empty m1 (start_type s) :: ss /\
    make_page C next doc1 = Ok doc2 /\
    sections doc2 = page_settings next m2 (start_type s) :: ss.
Proof.
  intros Hp Hs Hbs Hm1 Hm2.
  assert (Hne : sections doc <> []) by (rewrite Hs; discriminate).
  destruct (make_page_body C empty doc m1 Hne Hm1) as (doc1 & Hmk1 & Hbody1).
  unfold closing_elements, break_elements in Hbody1.
  rewrite Hbs, Hp in Hbody1. cbn in Hbody1.
  rewrite app_nil_r in Hbody1.
  pose proof (make_page_sections C empty doc doc1 m1 Hmk1 Hm1) as Hs1.
  rewrite Hp, Hs in Hs1. cbn in Hs1.
  assert (Hp1 : paragraphs doc1 = []) by (unfold paragraphs in *; now rewrite Hbody1).
  assert (Hne1 : sections doc1 <> []) by (rewrite Hs1; discriminate).
  destruct (make_page_body C next doc1 m2 Hne1 Hm2) as (doc2 & Hmk2 & _).
  exists doc1, doc2.
  split; [exact Hmk1 |]. split; [exact Hbody1 |]. split; [exact Hs1 |].
  split; [exact Hmk2 |].
  rewrite (make_page_sections C next doc1 doc2 m2 Hmk2 Hm2), Hp1, Hs1.
  destruct m1 as [[[l r] t] b]. reflexivity.
Qed.

Lemma make_page_after_empty_page_witness :
  exists doc1 doc2,
    make_page sample (page_of []) new_document = Ok doc1 /\
    make_page sample (page_of [text_a]) doc1 = Ok doc2 /\
    length (sections doc2) = 1%nat.
Proof.
  destruct (make_page_after_empty_page sample (page_of []) (page_of [text_a])
              new_document (72, 72, 50, 50) (72, 72, 50, 50)
              (mkDocSection NEW_PAGE None None None None None None) [])
    as (doc1 & doc2 & H1 & _ & _ & H2 & H3);
    [reflexivity | reflexivity | reflexivity | reflexivity | reflexivity |].
  exists doc1, doc2. split; [exact H1 |]. split; [exact H2 |]. now rewrite H3.
Defined.

(** ** The height of the spacer *)

Lemma round_half_even_near (q : Q) :
  - (1 # 2) <= inject_Z (Py.round_half_even q) - q <= 1 # 2.
Proof.
  unfold Py.round_half_even.
  pose proof (Qfloor_le q) as Hlo. pose proof (Qlt_floor q) as Hhi.
  rewrite inject_Z_plus in Hhi. change (inject_Z 1) with 1 in Hhi.
  destruct (Qlt_le_dec _ _) as [H1 | H1]; [lra |].
  destruct (Qlt_le_dec _ _) as [H2 | H2].
  - rewrite inject_Z_plus. change (inject_Z 1) with 1. lra.
  - destruct (Z.even _); [lra |].
    rewrite inject_Z_plus. change (inject_Z 1) with 1. lra.
Qed.

Lemma round1_near (q : Q) : - (1 # 20) <= Py.round1 q - q <= 1 # 20.
Proof.
  unfold Py.round1. pose proof (round_half_even_near (q * 10)) as H.
  revert H. generalize (inject_Z (Py.round_half_even (q * 10))). intros z H.
  unfold Qdiv. change (/ 10) with (1 # 10). lra.
Qed.

(** X14. The spacer before a table block with a positive before space has
    the same before space and line spacing [h], a whole number of tenths of
    a point, at most a twentieth of a point away from the half of the
    before space of the block. *)
Theorem table_spacer_height (C : Collaborators) (b : Block) :
  0 < before_space b ->
  exists (h : Q) (tenths : Z),
    space_before (table_spacer C b) = Some (Pt h) /\
    line_spacing (table_spacer C b) = Some (Pt h) /\
    h == inject_Z tenths / 10 /\
    (0 <= tenths)%Z /\
    - (1 # 20) <= h - before_space b / 2 <= 1 # 20.
Proof.
  intros Hpos.
  exists (Py.round1 (before_space b / 2)),
         (Py.round_half_even (before_space b / 2 * 10)).
  assert (Hq : 0 <= before_space b / 2)
    by (apply Qle_shift_div_l; [reflexivity | lra]).
  split; [| split; [reflexivity | split; [reflexivity | split]]].
  - cbn. unfold Py.max.
    destruct (Qlt_le_dec _ 0) as [Hneg |]; [| reflexivity].
    pose proof (round1_nonneg _ Hq). lra.
  - apply round_half_even_nonneg. lra.
  - apply round1_near.
Qed.

(** The table block with a before space of 1/4. *)
Lemma table_spacer_height_witness :
  exists (h : Q) (tenths : Z),
    space_before (table_spacer sample table_quarter) = Some (Pt h) /\
    line_spacing (table_spacer sample table_quarter) = Some (Pt h) /\
    h == inject_Z tenths / 10 /\
    (0 <= tenths)%Z /\
    - (1 # 20) <= h - before_space table_quarter / 2 <= 1 # 20.
Proof.
  apply (table_spacer_height sample table_quarter). reflexivity.
Defined.

(** ** The snapshot of a constructed layout *)

(** X15. The snapshot of a layout fresh from the constructor gives back the
    sizes of the raw dictionary, or 0.0 for a size that the dictionary does
    not have; its margin is [None] and its shapes are the snapshot of an
    empty set, whatever the dictionary holds. *)
Theorem store_after_init (C : Collaborators) (raw : gmap string Value) :
  (forall w, raw !! "width" = Some (VFloat w) ->
     store C (Layout_init C raw) !! "width" = Some (VFloat w)) /\
  (raw !! "width" = None ->
     store C (Layout_init C raw) !! "width" = Some (VFloat 0)) /\
  (forall h, raw !! "height" = Some (VFloat h) ->
     store C (Layout_init C raw) !! "height" = Some (VFloat h)) /\
  (raw !! "height" = None ->
     store C (Layout_init C raw) !! "height" = Some (VFloat 0)) /\
  store C (Layout_init C raw) !! "margin" = Some VNone /\
  store C (Layout_init C raw) !! "rects" = Some (Rectangles_store C []).
Proof.
  unfold store, Layout_init, dict_get. cbn [width height blocks rects _margin].
  repeat split; try (intros w Hw; rewrite Hw); try (intros Hw; rewrite Hw);
    by simplify_map_eq.
Qed.

(** The raw page of 800 by 600, and the raw dictionary without entries. *)
Lemma store_after_init_witness :
  store sample (Layout_init sample raw_two_blocks) !! "width" = Some (VFloat 800) /\
  store sample (Layout_init sample ∅) !! "height" = Some (VFloat 0).
Proof.
  destruct (store_after_init sample raw_two_blocks) as (Hw & _).
  destruct (store_after_init sample ∅) as (_ & _ & _ & Hh & _).
  split; [apply Hw; reflexivity | apply Hh; reflexivity].
Defined.

(** ** Plotting *)

(** X16. [plot] keeps the pages of the document and adds at most one. For a
    category without objects it adds none: so for the shapes of a layout
    fresh from the constructor, and for a category that it does not know.
    For a category with objects it adds one page, with the title and the
    margin of the layout, on which every object of the category is drawn
    once, in order: explicit tables with their style and without content,
    implicit tables without both, blocks and shapes with the defaults. *)
Theorem plot_adds_one_page (explicit_table_blocks implicit_table_blocks :
                              Blocks -> list Block)
    (C : Collaborators) (raw : gmap string Value) (self : Layout)
    (doc : list PlotPage) (title : string) (key : PlotControl) :
  let objects := plot_objects explicit_table_blocks implicit_table_blocks self key in
  let plotted := plot explicit_table_blocks implicit_table_blocks self doc title key in
  (objects = [] -> plotted = doc) /\
  plot explicit_table_blocks implicit_table_blocks (Layout_init C raw) doc title SHAPE
  = doc /\
  plot explicit_table_blocks implicit_table_blocks self doc title OTHER = doc /\
  (objects <> [] ->
   exists page,
     plotted = doc ++ [page] /\
     plot_title page = title /\
     plot_margin page = margin self /\
     map fst (drawn page) = objects /\
     Forall (fun d => d.2 = match key with
                            | TABLE => ContentStyle false true
                            | IMPLICIT_TABLE => ContentStyle false false
                            | _ => DefaultArgs
                            end) (drawn page)).
Proof.
  intros objects plotted. subst plotted. unfold plot. fold objects.
  split; [intros ->; reflexivity |].
  split; [reflexivity |]. split; [reflexivity |].
  intros Hne. destruct objects as [| o os] eqn:E; [congruence |].
  cbn [nonempty negb]. eexists. split; [reflexivity |]. cbn [plot_title plot_margin drawn].
  split; [reflexivity |]. split; [reflexivity |].
  split.
  - rewrite map_map. cbn. now rewrite map_id.
  - apply Forall_map. cbn. apply Forall_forall. intros; reflexivity.
Qed.

(** The explicit tables of a page with a text block and a table block. *)
Lemma plot_adds_one_page_witness :
  plot (List.filter is_table_block) (fun _ => []) (page_of [text_a]) [] "t" SHAPE
  = [] /\
  exists page,
    plot (List.filter is_table_block) (fun _ => []) (page_of [text_a; table_b]) []
      "Explicit Table Structure" TABLE = [page] /\
    map fst (drawn page) = [BlockObject table_b].
Proof.
  destruct (plot_adds_one_page (List.filter is_table_block) (fun _ => []) sample
              raw_two_blocks (page_of [text_a; table_b]) []
              "Explicit Table Structure" TABLE) as (_ & _ & _ & Hpage).
  destruct (plot_adds_one_page (List.filter is_table_block) (fun _ => []) sample
              raw_two_blocks (page_of [text_a]) [] "t" SHAPE) as (Hnone & _).
  split; [apply Hnone; reflexivity |].
  destruct Hpage as (page & Hp & _ & _ & Hd & _); [discriminate |].
  exists page. split; [exact Hp | exact Hd].
Defined.

(** ** The free space around the content *)

(** X17. How far the margin reaches towards the content: for every box of
    the page, the left margin is at most the distance of the box from the
    left edge, and the top and bottom margins are at most half the distance
    of the box from the top and from the bottom edge (a distance that is
    negative counts as zero). *)
Theorem margin_within_free_space (DM : Q) (self : Layout) :
  exists l r t b,
    page_margin DM self = Ok (l, r, t, b) /\
    Forall (fun bx =>
              l <= Py.max (x0 bx) 0 /\
              t <= Py.max (y0 bx) 0 * (1 # 2) /\
              b <= Py.max (height self - y1 bx) 0 * (1 # 2))
           (boxes self).
Proof.
  rewrite page_margin_total.
  destruct (boxes self) as [| bx0 bxs].
  - exists ITP, ITP, ITP, ITP. split; [reflexivity | constructor].
  - unfold margin_of_boxes. eexists _, _, _, _. split; [reflexivity |].
    apply Forall_forall. intros e He. apply list_elem_of_In in He.
    destruct (fold_min_le (map x0 bxs) (x0 bx0)) as [Lx1 Lx2].
    destruct (fold_min_le (map y0 bxs) (y0 bx0)) as [Ly1 Ly2].
    destruct (fold_max_ge (map y1 bxs) (y1 bx0)) as [Gy1 Gy2].
    assert (Hx0 : fold_left Py.min (map x0 bxs) (x0 bx0) <= x0 e).
    { apply (lower_bound_In _ (x0 bx0) (map x0 bxs)); [assumption | assumption |].
      change (In (x0 e) (map x0 (bx0 :: bxs))). now apply in_map. }
    assert (Hy0 : fold_left Py.min (map y0 bxs) (y0 bx0) <= y0 e).
    { apply (lower_bound_In _ (y0 bx0) (map y0 bxs)); [assumption | assumption |].
      change (In (y0 e) (map y0 (bx0 :: bxs))). now apply in_map. }
    assert (Hy1 : y1 e <= fold_left Py.max (map y1 bxs) (y1 bx0)).
    { apply (upper_bound_In _ (y1 bx0) (map y1 bxs)); [assumption | assumption |].
      change (In (y1 e) (map y1 (bx0 :: bxs))). now apply in_map. }
    clear Lx1 Lx2 Ly1 Ly2 Gy1 Gy2 He.
    revert Hx0 Hy0 Hy1.
    generalize (fold_left Py.min (map x0 bxs) (x0 bx0))
               (fold_left Py.min (map y0 bxs) (y0 bx0))
               (fold_left Py.max (map y1 bxs) (y1 bx0)).
    intros xmin ymin ymax Hx0 Hy0 Hy1.
    unfold ITP. repeat split; py_minmax; lra.
Qed.
